(** * NgbPagination: the page-window computation of [src/pagination/pagination.ts]

    A shallow embedding of the [NgbPagination] component class: its fields
    become a record, its methods become functions on that record, the
    [pageChange] event emitter becomes a trace of emitted payloads, and the
    one unbounded loop of [ngOnChanges] is run with fuel. *)

From Stdlib Require Import ZArith QArith Qround List Bool Lia Sorted.
Import ListNotations.
Open Scope Z_scope.

(** ** JavaScript numbers

    The component computes with integer-valued doubles.  Inside the
    safe-integer range their arithmetic is exact, so a finite number is a
    [Z]; the three non-finite values are kept because division by zero
    produces them.  Negative zero is identified with zero. *)
Module Js.

Inductive number : Type :=
| Fin (z : Z)
| PInf
| NInf
| NaN.

(** The value of [a / b] before any rounding: an exact rational, or a
    non-finite value. *)
Inductive quotient : Type :=
| QFin (q : Q)
| QPInf
| QNInf
| QNaN.

(** [a / b] *)
Definition div (a b : number) : quotient :=
  match a, b with
  | NaN, _ | _, NaN => QNaN
  | Fin x, Fin y =>
      if y =? 0
      then (if 0 <? x then QPInf else if x <? 0 then QNInf else QNaN)
      else QFin (inject_Z x / inject_Z y)
  | Fin _, (PInf | NInf) => QFin 0
  | PInf, Fin y => if y <? 0 then QNInf else QPInf
  | NInf, Fin y => if y <? 0 then QPInf else QNInf
  | (PInf | NInf), (PInf | NInf) => QNaN
  end.

(** [Math.ceil] *)
Definition ceil (q : quotient) : number :=
  match q with
  | QFin q => Fin (Qceiling q)
  | QPInf => PInf
  | QNInf => NInf
  | QNaN => NaN
  end.

(** [Math.floor] *)
Definition floor (q : quotient) : number :=
  match q with
  | QFin q => Fin (Qfloor q)
  | QPInf => PInf
  | QNInf => NInf
  | QNaN => NaN
  end.

(** [a % b]: the remainder takes the sign of the dividend. *)
Definition rem (a b : number) : number :=
  match a, b with
  | Fin x, Fin y => if y =? 0 then NaN else Fin (Z.rem x y)
  | Fin x, (PInf | NInf) => Fin x
  | _, _ => NaN
  end.

(** [a + b] *)
Definition add (a b : number) : number :=
  match a, b with
  | NaN, _ | _, NaN => NaN
  | Fin x, Fin y => Fin (x + y)
  | PInf, NInf | NInf, PInf => NaN
  | PInf, _ | _, PInf => PInf
  | NInf, _ | _, NInf => NInf
  end.

(** [- a] *)
Definition neg (a : number) : number :=
  match a with
  | Fin x => Fin (- x)
  | PInf => NInf
  | NInf => PInf
  | NaN => NaN
  end.

(** [a - b] *)
Definition sub (a b : number) : number := add a (neg b).

(** [a * b] *)
Definition mul (a b : number) : number :=
  match a, b with
  | NaN, _ | _, NaN => NaN
  | Fin x, Fin y => Fin (x * y)
  | Fin x, PInf | PInf, Fin x =>
      if 0 <? x then PInf else if x <? 0 then NInf else NaN
  | Fin x, NInf | NInf, Fin x =>
      if 0 <? x then NInf else if x <? 0 then PInf else NaN
  | PInf, PInf | NInf, NInf => PInf
  | PInf, NInf | NInf, PInf => NInf
  end.

(** [a < b]: every comparison with [NaN] is false. *)
Definition lt (a b : number) : bool :=
  match a, b with
  | NaN, _ | _, NaN => false
  | Fin x, Fin y => x <? y
  | NInf, NInf | PInf, _ | _, NInf => false
  | NInf, _ | _, PInf => true
  end.

(** [a <= b] *)
Definition le (a b : number) : bool :=
  match a, b with
  | NaN, _ | _, NaN => false
  | Fin x, Fin y => x <=? y
  | NInf, _ | _, PInf => true
  | PInf, _ | _, NInf => false
  end.

(** [a > b] *)
Definition gt (a b : number) : bool := lt b a.

(** [a === b] on numbers: [NaN] is not equal to itself. *)
Definition strict_eq (a b : number) : bool :=
  match a, b with
  | Fin x, Fin y => x =? y
  | PInf, PInf | NInf, NInf => true
  | _, _ => false
  end.

(** [a !== b] *)
Definition strict_neq (a b : number) : bool := negb (strict_eq a b).

(** ** Arrays of numbers *)

(** [arr.push(x)] *)
Definition push (arr : list number) (x : number) : list number := arr ++ [x].

(** [arr.unshift(x)] *)
Definition unshift (arr : list number) (x : number) : list number := x :: arr.

(** The position an argument of [slice] denotes in an array of [len]
    elements: [NaN] counts as 0, a negative position counts from the end,
    and the result is kept inside [0, len]. *)
Definition relative_index (len : Z) (k : number) : Z :=
  match k with
  | NaN => 0
  | NInf => 0
  | PInf => len
  | Fin z => if z <? 0 then Z.max (len + z) 0 else Z.min z len
  end.

(** [arr.slice(start, end)] *)
Definition slice (arr : list number) (start end_ : number) : list number :=
  let len := Z.of_nat (length arr) in
  let k := relative_index len start in
  let final := relative_index len end_ in
  firstn (Z.to_nat (Z.max (final - k) 0)) (skipn (Z.to_nat k) arr).

End Js.

Import Js.

(** ** The component state

    One field per member of the class that the computation reads or
    writes.  [boundaryLinks], [directionLinks] and [size] only feed the
    template and are left out.  [pageChange] records the payloads handed to
    the event emitter, oldest first. *)
Record NgbPagination : Type := mkNgbPagination {
  _pageCount : number;
  pages : list number;
  ellipses : bool;
  rotate : bool;
  collectionSize : number;
  maxSize : number;
  page : number;
  pageSize : number;
  pageChange : list number
}.

Definition set_pageCount (this : NgbPagination) (v : number) : NgbPagination :=
  mkNgbPagination v (pages this) (ellipses this) (rotate this)
    (collectionSize this) (maxSize this) (page this) (pageSize this)
    (pageChange this).

Definition set_pages (this : NgbPagination) (v : list number) : NgbPagination :=
  mkNgbPagination (_pageCount this) v (ellipses this) (rotate this)
    (collectionSize this) (maxSize this) (page this) (pageSize this)
    (pageChange this).

Definition set_page (this : NgbPagination) (v : number) : NgbPagination :=
  mkNgbPagination (_pageCount this) (pages this) (ellipses this) (rotate this)
    (collectionSize this) (maxSize this) v (pageSize this)
    (pageChange this).

(** [this.pageChange.emit(v)] *)
Definition emit (this : NgbPagination) (v : number) : NgbPagination :=
  mkNgbPagination (_pageCount this) (pages this) (ellipses this) (rotate this)
    (collectionSize this) (maxSize this) (page this) (pageSize this)
    (pageChange this ++ [v]).

(** The component as the class initialisers leave it, with the inputs the
    host binds. *)
Definition init (collectionSize pageSize maxSize page : number)
    (rotate ellipses : bool) : NgbPagination :=
  mkNgbPagination (Fin 0) [] ellipses rotate collectionSize maxSize page
    pageSize [].

(** ** Methods *)

(** Modelled from the spec: [getValueInRange] is imported from
    [../util/util], which is not part of the sources at hand.  Section 4.1
    gives its contract as [clamp(requested, pageCount, minPage)]: it returns
    [minPage] if [pageCount <= 0] or [requested < minPage], returns
    [pageCount] if [requested > pageCount], and otherwise returns
    [requested] unchanged. *)
Definition getValueInRange (value max min : number) : number :=
  if le max (Fin 0) || lt value min then min
  else if gt value max then max
  else value.

Definition _getPageNoInRange (this : NgbPagination) (newPageNo : number) : number :=
  getValueInRange newPageNo (_pageCount this) (Fin 1).

Definition _isEllipsis (pageNumber : number) : bool :=
  strict_eq pageNumber (Fin (-1)).

Definition hasPrevious (this : NgbPagination) : bool := gt (page this) (Fin 1).

Definition hasNext (this : NgbPagination) : bool := lt (page this) (_pageCount this).

(** Paginates page numbers based on [maxSize] items per page. *)
Definition _applyPagination (this : NgbPagination) : number * number :=
  let page_ := sub (ceil (div (page this) (maxSize this))) (Fin 1) in
  let start := mul page_ (maxSize this) in
  let end_ := add start (maxSize this) in
  (start, end_).

(** Rotates page numbers based on [maxSize] items visible. *)
Definition _applyRotation (this : NgbPagination) : number * number :=
  let start := Fin 0 in
  let end_ := _pageCount this in
  let leftOffset := floor (div (maxSize this) (Fin 2)) in
  let rightOffset :=
    if strict_eq (rem (maxSize this) (Fin 2)) (Fin 0)
    then sub leftOffset (Fin 1) else leftOffset in
  if le (page this) leftOffset then
    (start, maxSize this)
  else if lt (sub (_pageCount this) (page this)) leftOffset then
    (sub (_pageCount this) (maxSize this), end_)
  else
    (sub (sub (page this) leftOffset) (Fin 1), add (page this) rightOffset).

(** Appends ellipses and first/last page number to the displayed pages. *)
Definition _applyEllipses (this : NgbPagination) (start end_ : number) : NgbPagination :=
  if ellipses this then
    let this :=
      if gt start (Fin 0)
      then set_pages this (unshift (unshift (pages this) (Fin (-1))) (Fin 1))
      else this in
    if lt end_ (_pageCount this)
    then set_pages this (push (push (pages this) (Fin (-1))) (_pageCount this))
    else this
  else this.

(** The loop [for (let i = 1; i <= this._pageCount; i++) this.pages.push(i)],
    started at [i].  Nothing bounds the number of rounds when the page
    count is [PInf], so the loop is run with fuel and [None] means the fuel
    ran out. *)
Fixpoint fill_pages (fuel : nat) (i : number) (this : NgbPagination)
    : option NgbPagination :=
  if le i (_pageCount this) then
    match fuel with
    | O => None
    | S fuel' =>
        fill_pages fuel' (add i (Fin 1)) (set_pages this (push (pages this) i))
    end
  else Some this.

Definition ngOnChanges (fuel : nat) (this : NgbPagination) : option NgbPagination :=
  (* re-calculate new length of pages *)
  let this := set_pageCount this (ceil (div (collectionSize this) (pageSize this))) in
  (* fill-in model needed to render pages *)
  let this := set_pages this [] in
  match fill_pages fuel (Fin 1) this with
  | None => None
  | Some this =>
      (* get selected page *)
      let this := set_page this (_getPageNoInRange this (page this)) in
      (* apply maxSize if necessary *)
      if gt (maxSize this) (Fin 0) && gt (_pageCount this) (maxSize this) then
        let '(start, end_) :=
          if rotate this then _applyRotation this else _applyPagination this in
        let this := set_pages this (slice (pages this) start end_) in
        (* adding ellipses *)
        Some (_applyEllipses this start end_)
      else Some this
  end.

Definition selectPage (fuel : nat) (this : NgbPagination) (pageNumber : number)
    : option NgbPagination :=
  let prevPageNo := page this in
  let this := set_page this (_getPageNoInRange this pageNumber) in
  let this :=
    if strict_neq (page this) prevPageNo then emit this (page this) else this in
  ngOnChanges fuel this.

(** ** Definitions used to state the properties *)

(** The ellipsis marker of the Display Sequence. *)
Definition ellipsis : number := Fin (-1).

(** A recompute of a freshly built component with integer inputs, with
    fuel for 64 pages. *)
Definition run (collectionSize pageSize maxSize page : Z) (rotate ellipses : bool)
    : option NgbPagination :=
  ngOnChanges 64
    (init (Fin collectionSize) (Fin pageSize) (Fin maxSize) (Fin page) rotate ellipses).

(** The numbers [i, i+1, ..., i+n-1]. *)
Definition numbers_from (i : Z) (n : nat) : list number :=
  map (fun k => Fin (i + Z.of_nat k)) (seq 0 n).

(** What [ngOnChanges] does once the loop has returned. *)
Definition after_fill (this : NgbPagination) : NgbPagination :=
  let this := set_page this (_getPageNoInRange this (page this)) in
  if gt (maxSize this) (Fin 0) && gt (_pageCount this) (maxSize this) then
    let bounds :=
      if rotate this then _applyRotation this else _applyPagination this in
    _applyEllipses (set_pages this (slice (pages this) (fst bounds) (snd bounds)))
      (fst bounds) (snd bounds)
  else this.

(** The state in which the loop leaves a component whose page count is
    the finite number [q]. *)
Definition filled (this : NgbPagination) (q : Z) : NgbPagination :=
  set_pages (set_pageCount this (Fin q)) (numbers_from 1 (Z.to_nat q)).

(** The number of entries of a Display Sequence that are real pages. *)
Definition shown_pages (l : list number) : Z :=
  Z.of_nat (length (filter (fun e => negb (_isEllipsis e)) l)).

(** What an entry of the Display Sequence over [pc] pages may be: the
    ellipsis marker [-1], which [_isEllipsis] accepts, or a real page in
    [[1, pc]], which it rejects. *)
Definition display_entry (pc : Z) (e : number) : Prop :=
  (e = Fin (-1) /\ _isEllipsis e = true)
  \/ (exists v : Z, e = Fin v /\ 1 <= v <= pc /\ _isEllipsis e = false).

Ltac compare_cases :=
  repeat match goal with
  | |- context [?a <=? ?b] => destruct (Z.leb_spec a b)
  | |- context [?a <? ?b] => destruct (Z.ltb_spec a b)
  | |- context [?a =? ?b] => destruct (Z.eqb_spec a b)
  end.

(** ** The template's bindings

    The handlers and class bindings of the component's template, in the
    order of the list items that carry them. *)

(** [(click)="!!selectPage(1)"] of the "First" link. *)
Definition clickFirst (fuel : nat) (this : NgbPagination) : option NgbPagination :=
  selectPage fuel this (Fin 1).

(** [(click)="!!selectPage(page-1)"] of the "Previous" link. *)
Definition clickPrevious (fuel : nat) (this : NgbPagination) : option NgbPagination :=
  selectPage fuel this (sub (page this) (Fin 1)).

(** [[class.active]="pageNumber === page"] of an entry of [pages]. *)
Definition isActive (this : NgbPagination) (pageNumber : number) : bool :=
  strict_eq pageNumber (page this).

(** The link of an entry of [pages]: an ellipsis is rendered without a
    handler, a page with [(click)="!!selectPage(pageNumber)"]. *)
Definition clickPage (fuel : nat) (this : NgbPagination) (pageNumber : number)
    : option NgbPagination :=
  if _isEllipsis pageNumber then Some this
  else selectPage fuel this pageNumber.

(** [(click)="!!selectPage(page+1)"] of the "Next" link. *)
Definition clickNext (fuel : nat) (this : NgbPagination) : option NgbPagination :=
  selectPage fuel this (add (page this) (Fin 1)).

(** [(click)="!!selectPage(_pageCount)"] of the "Last" link. *)
Definition clickLast (fuel : nat) (this : NgbPagination) : option NgbPagination :=
  selectPage fuel this (_pageCount this).

(** The entries of a Display Sequence that are real pages, in order. *)
Definition real_pages (l : list number) : list number :=
  filter (fun e => negb (_isEllipsis e)) l.

(** ** Sample executions *)

Example run_rotation_centre :
  option_map pages (run 200 10 5 10 true true)
  = Some (map Fin [1] ++ [ellipsis] ++ map Fin [8; 9; 10; 11; 12] ++ [ellipsis] ++ map Fin [20]).
Proof. reflexivity. Qed.

Example run_blocks :
  option_map pages (run 100 10 3 4 false false) = Some (map Fin [4; 5; 6]).
Proof. reflexivity. Qed.

Example run_blocks_last :
  option_map pages (run 100 10 3 10 false true) = Some [Fin 1; ellipsis; Fin 10].
Proof. reflexivity. Qed.

Example run_unwindowed :
  option_map pages (run 25 10 0 7 false true) = Some (map Fin [1; 2; 3])
  /\ option_map page (run 25 10 0 7 false true) = Some (Fin 3).
Proof. split; reflexivity. Qed.

(** ** Facts about numbers *)

Lemma Qceiling_quot (x y : Z) :
  y <> 0 -> Qceiling (inject_Z x / inject_Z y) = - ((- x) / y).
Proof.
  intros Hy. unfold Qceiling, Qfloor, Qdiv, Qmult, Qinv, Qopp, inject_Z; simpl.
  destruct y as [|p|p]; [congruence| |]; simpl.
  - rewrite Z.mul_1_r. reflexivity.
  - f_equal. rewrite <- (Z.div_opp_opp _ (Z.neg p)) by lia. f_equal; lia.
Qed.

Lemma Qfloor_quot (x y : Z) :
  0 < y -> Qfloor (inject_Z x / inject_Z y) = x / y.
Proof.
  intros Hy. unfold Qfloor, Qdiv, Qmult, Qinv, inject_Z; simpl.
  destruct y as [|p|p]; try lia; simpl.
  rewrite Z.mul_1_r. reflexivity.
Qed.

Lemma ceil_div_Fin (x y : Z) :
  y <> 0 -> ceil (div (Fin x) (Fin y)) = Fin (- ((- x) / y)).
Proof.
  intros Hy. unfold div. destruct (Z.eqb_spec y 0) as [E|_]; [contradiction|].
  simpl. now rewrite Qceiling_quot.
Qed.

Lemma floor_half_Fin (m : Z) : floor (div (Fin m) (Fin 2)) = Fin (m / 2).
Proof.
  change (floor (div (Fin m) (Fin 2))) with (Fin (Qfloor (inject_Z m / inject_Z 2))).
  now rewrite Qfloor_quot.
Qed.

(** The integer [- ((- x) / y)] is the least [c] with [x <= c * y]. *)
Lemma ceiling_bounds (x y : Z) :
  0 < y -> (- ((- x) / y) - 1) * y < x <= - ((- x) / y) * y.
Proof.
  intros Hy.
  pose proof (Z.div_mod (- x) y ltac:(lia)) as E.
  pose proof (Z.mod_pos_bound (- x) y Hy) as B.
  nia.
Qed.

Lemma ceiling_unique (x y c : Z) :
  0 < y -> (c - 1) * y < x <= c * y -> - ((- x) / y) = c.
Proof.
  intros Hy Hc. pose proof (ceiling_bounds x y Hy). nia.
Qed.

Lemma rem_two_even (m : Z) :
  strict_eq (rem (Fin m) (Fin 2)) (Fin 0) = Z.even m.
Proof.
  change (strict_eq (rem (Fin m) (Fin 2)) (Fin 0)) with (Z.rem m 2 =? 0).
  rewrite Zeven_mod. apply eq_true_iff_eq.
  rewrite !Z.eqb_eq. apply Z.rem_mod_eq_0. lia.
Qed.

(** ** The fill loop *)

Lemma numbers_from_S (i : Z) (n : nat) :
  numbers_from i (S n) = Fin i :: numbers_from (i + 1) n.
Proof.
  unfold numbers_from. simpl. rewrite Z.add_0_r. f_equal.
  rewrite <- seq_shift, map_map. apply map_ext.
  intros k. f_equal. lia.
Qed.

Lemma numbers_from_length (i : Z) (n : nat) : length (numbers_from i n) = n.
Proof. unfold numbers_from. now rewrite length_map, length_seq. Qed.

Lemma numbers_from_nth (i : Z) (n k : nat) :
  (k < n)%nat -> nth_error (numbers_from i n) k = Some (Fin (i + Z.of_nat k)).
Proof.
  intros Hk. unfold numbers_from.
  rewrite nth_error_map, nth_error_seq.
  destruct (Nat.ltb_spec k n); [reflexivity | lia].
Qed.

Lemma set_pages_same (this : NgbPagination) : set_pages this (pages this) = this.
Proof. now destruct this. Qed.

(** With a finite page count the loop stops after [pageCount - i + 1]
    rounds, having pushed [i .. pageCount]. *)
Lemma fill_pages_Fin (n : nat) :
  forall (fuel : nat) (i q : Z) (this : NgbPagination),
    _pageCount this = Fin q ->
    Z.to_nat (q - i + 1) = n ->
    (n <= fuel)%nat ->
    fill_pages fuel (Fin i) this
    = Some (set_pages this (pages this ++ numbers_from i n)).
Proof.
  induction n as [|n IH]; intros fuel i q this Hq Hn Hfuel.
  - destruct fuel; simpl; rewrite Hq; simpl;
      (destruct (Z.leb_spec i q); [lia|]);
      now rewrite app_nil_r, set_pages_same.
  - destruct fuel as [|fuel]; [lia|].
    simpl. rewrite Hq. simpl.
    destruct (Z.leb_spec i q); [|lia].
    rewrite (IH fuel (i + 1) q) by (simpl; auto; lia).
    rewrite numbers_from_S. unfold push, set_pages; simpl.
    now rewrite <- app_assoc.
Qed.

(** With an infinite page count no amount of fuel is enough. *)
Lemma fill_pages_PInf (fuel : nat) :
  forall (i : Z) (this : NgbPagination),
    _pageCount this = PInf -> fill_pages fuel (Fin i) this = None.
Proof.
  induction fuel as [|fuel IH]; intros i this Hq; simpl; rewrite Hq; simpl.
  - reflexivity.
  - now apply IH.
Qed.

(** With a page count of [NaN] the loop body never runs. *)
Lemma fill_pages_NaN (fuel : nat) (i : number) (this : NgbPagination) :
  _pageCount this = NaN -> fill_pages fuel i this = Some this.
Proof.
  intros Hq. destruct fuel; simpl; rewrite Hq; now destruct i.
Qed.

(** ** The recompute, split at the loop *)

Lemma ngOnChanges_after_fill (fuel : nat) (this : NgbPagination) :
  ngOnChanges fuel this
  = option_map after_fill
      (fill_pages fuel (Fin 1)
         (set_pages
            (set_pageCount this (ceil (div (collectionSize this) (pageSize this))))
            [])).
Proof.
  unfold ngOnChanges.
  destruct (fill_pages _ _ _) as [t|]; [|reflexivity].
  unfold after_fill, option_map; cbv zeta.
  destruct (gt _ _ && gt _ _); [|reflexivity].
  destruct (rotate _).
  - destruct (_applyRotation _); reflexivity.
  - destruct (_applyPagination _); reflexivity.
Qed.

Lemma ngOnChanges_Fin (fuel : nat) (this : NgbPagination) (q : Z) :
  ceil (div (collectionSize this) (pageSize this)) = Fin q ->
  (Z.to_nat q <= fuel)%nat ->
  ngOnChanges fuel this = Some (after_fill (filled this q)).
Proof.
  intros Hq Hfuel. rewrite ngOnChanges_after_fill, Hq.
  rewrite (fill_pages_Fin (Z.to_nat q) fuel 1 q); auto.
  f_equal; lia.
Qed.

(** For a positive page size the page count is finite, and at most the
    collection size when that is not negative. *)
Lemma pageCount_Fin (this : NgbPagination) (cs ps : Z) :
  collectionSize this = Fin cs -> pageSize this = Fin ps -> 0 < ps ->
  ceil (div (collectionSize this) (pageSize this)) = Fin (- ((- cs) / ps)).
Proof.
  intros -> -> Hps. apply ceil_div_Fin. lia.
Qed.

Lemma pageCount_le_collectionSize (cs ps : Z) :
  0 <= cs -> 0 < ps -> 0 <= - ((- cs) / ps) <= cs.
Proof.
  intros Hcs Hps. pose proof (ceiling_bounds cs ps Hps). nia.
Qed.

(** ** Slices of the full page list *)

Lemma skipn_numbers_from (k : nat) :
  forall (i : Z) (n : nat),
    skipn k (numbers_from i n) = numbers_from (i + Z.of_nat k) (n - k).
Proof.
  induction k as [|k IH]; intros i n.
  - simpl. now rewrite Z.add_0_r, Nat.sub_0_r.
  - destruct n as [|n]; [reflexivity|].
    rewrite numbers_from_S. simpl skipn. rewrite IH.
    f_equal. lia.
Qed.

Lemma firstn_numbers_from (c : nat) :
  forall (i : Z) (n : nat),
    firstn c (numbers_from i n) = numbers_from i (Nat.min c n).
Proof.
  induction c as [|c IH]; intros i n.
  - reflexivity.
  - destruct n as [|n]; [reflexivity|].
    rewrite numbers_from_S. simpl firstn. rewrite IH.
    simpl Nat.min. now rewrite numbers_from_S.
Qed.

(** A slice of [1 .. n] at non-negative positions is a run of consecutive
    page numbers, cut off at [n]. *)
Lemma slice_numbers_from (n : nat) (s e : Z) :
  0 <= s -> 0 <= e ->
  slice (numbers_from 1 n) (Fin s) (Fin e)
  = numbers_from (1 + Z.min s (Z.of_nat n))
      (Z.to_nat (Z.min e (Z.of_nat n) - Z.min s (Z.of_nat n))).
Proof.
  intros Hs He. unfold slice, relative_index.
  rewrite numbers_from_length.
  destruct (Z.ltb_spec s 0); [lia|]. destruct (Z.ltb_spec e 0); [lia|].
  rewrite skipn_numbers_from, firstn_numbers_from.
  f_equal; lia.
Qed.

Lemma numbers_from_Forall (P : number -> Prop) (i : Z) (n : nat) :
  (forall v, i <= v < i + Z.of_nat n -> P (Fin v)) ->
  Forall P (numbers_from i n).
Proof.
  intros H. unfold numbers_from. apply Forall_map, Forall_forall.
  intros k Hk. apply in_seq in Hk. apply H. lia.
Qed.

(** ** The two window strategies on finite values *)

Lemma applyRotation_Fin (this : NgbPagination) (pc m p : Z) :
  _pageCount this = Fin pc -> maxSize this = Fin m -> page this = Fin p ->
  _applyRotation this
  = let leftOffset := m / 2 in
    let rightOffset := if Z.even m then leftOffset - 1 else leftOffset in
    if p <=? leftOffset then (Fin 0, Fin m)
    else if pc - p <? leftOffset then (Fin (pc - m), Fin pc)
    else (Fin (p - leftOffset - 1), Fin (p + rightOffset)).
Proof.
  intros Hpc Hm Hp. unfold _applyRotation.
  rewrite Hpc, Hm, Hp, floor_half_Fin, rem_two_even. cbv zeta.
  change (le (Fin p) (Fin (m / 2))) with (p <=? m / 2).
  destruct (p <=? m / 2); [reflexivity|].
  change (lt (sub (Fin pc) (Fin p)) (Fin (m / 2))) with (pc + - p <? m / 2).
  replace (pc + - p) with (pc - p) by lia.
  destruct (pc - p <? m / 2).
  - unfold sub; simpl. repeat f_equal; lia.
  - destruct (Z.even m); unfold sub; simpl; repeat f_equal; lia.
Qed.

Lemma applyPagination_Fin (this : NgbPagination) (m p : Z) :
  maxSize this = Fin m -> page this = Fin p -> m <> 0 ->
  _applyPagination this
  = let block := - ((- p) / m) - 1 in
    (Fin (block * m), Fin (block * m + m)).
Proof.
  intros Hm Hp Hm0. unfold _applyPagination.
  rewrite Hm, Hp, ceil_div_Fin by assumption.
  cbv zeta. unfold sub; simpl. repeat f_equal; lia.
Qed.

(** ** The clamp on finite values *)

Lemma getValueInRange_Fin (v mx : Z) :
  getValueInRange (Fin v) (Fin mx) (Fin 1) = Fin (Z.max 1 (Z.min v mx)).
Proof.
  unfold getValueInRange, gt, le, lt.
  compare_cases; simpl; f_equal; lia.
Qed.

Lemma getValueInRange_idempotent (v mx : number) :
  getValueInRange (getValueInRange v mx (Fin 1)) mx (Fin 1)
  = getValueInRange v mx (Fin 1).
Proof.
  unfold getValueInRange, gt, le, lt.
  destruct v, mx; simpl; compare_cases; simpl; compare_cases;
    simpl; try reflexivity; try lia.
Qed.

(** ** The window that a recompute selects *)

Lemma window_bounds (t : NgbPagination) (q m p : Z) :
  _pageCount t = Fin q -> maxSize t = Fin m -> page t = Fin p ->
  0 < m < q -> 1 <= p <= q ->
  exists s : Z,
    (if rotate t then _applyRotation t else _applyPagination t)
    = (Fin s, Fin (s + m))
    /\ 0 <= s < p /\ p <= s + m.
Proof.
  intros Hq Hm Hp Hmq Hpq. destruct (rotate t).
  - rewrite (applyRotation_Fin t q m p) by assumption. cbv zeta.
    assert (Hhalf : m / 2 * 2 <= m < m / 2 * 2 + 2).
    { pose proof (Z.div_mod m 2 ltac:(lia)).
      pose proof (Z.mod_pos_bound m 2 ltac:(lia)). lia. }
    assert (Heven : if Z.even m then m = m / 2 * 2 else m = m / 2 * 2 + 1).
    { pose proof (Z.div_mod m 2 ltac:(lia)) as E. rewrite Zmod_even in E.
      destruct (Z.even m); lia. }
    destruct (Z.leb_spec p (m / 2)).
    + exists 0. split; [reflexivity | lia].
    + destruct (Z.ltb_spec (q - p) (m / 2)).
      * exists (q - m). split; [|lia].
        apply f_equal2; apply f_equal; lia.
      * exists (p - m / 2 - 1).
        split; [|lia].
        revert Heven; destruct (Z.even m); intros;
          apply f_equal2; apply f_equal; lia.
  - rewrite (applyPagination_Fin t m p) by (assumption || lia). cbv zeta.
    pose proof (ceiling_bounds p m ltac:(lia)) as Hc.
    set (c := - (- p / m)) in *.
    assert (1 <= c) by nia.
    exists ((c - 1) * m). split; [reflexivity | nia].
Qed.

Lemma windowing_engaged (mx : number) (q : Z) :
  gt mx (Fin 0) && gt (Fin q) mx = true ->
  exists m : Z, mx = Fin m /\ 0 < m < q.
Proof.
  unfold gt, lt. destruct mx as [m| | |]; simpl; try discriminate.
  intros H. apply andb_true_iff in H as [H1 H2].
  apply Z.ltb_lt in H1, H2. now exists m.
Qed.

(** The Display Sequence when the window is engaged and the clamped page is
    the finite number [c]: a run of consecutive pages around [c] with, if
    ellipses are on, the two boundary groups around it. *)
Lemma display_windowed (this : NgbPagination) (q m c : Z) :
  maxSize this = Fin m -> 0 < m < q ->
  getValueInRange (page this) (Fin q) (Fin 1) = Fin c -> 1 <= c <= q ->
  exists s : Z,
    0 <= s < c /\ c <= s + m
    /\ (if rotate this
        then _applyRotation (set_page (filled this q) (Fin c))
        else _applyPagination (set_page (filled this q) (Fin c)))
       = (Fin s, Fin (s + m))
    /\ pages (after_fill (filled this q))
       = (if ellipses this && (0 <? s) then [Fin 1; Fin (-1)] else [])
         ++ numbers_from (1 + s) (Z.to_nat (Z.min (s + m) q - s))
         ++ (if ellipses this && (s + m <? q) then [Fin (-1); Fin q] else []).
Proof.
  intros Hm Hmq Hc Hcq.
  set (t := set_page (filled this q) (Fin c)).
  destruct (window_bounds t q m c) as (s & Hb & Hs1 & Hs2);
    try reflexivity; try assumption.
  exists s. split; [lia|]. split; [lia|].
  split; [exact Hb|].
  unfold after_fill. cbv zeta.
  unfold _getPageNoInRange.
  change (_pageCount (filled this q)) with (Fin q).
  change (page (filled this q)) with (page this).
  rewrite Hc. fold t.
  change (maxSize t) with (maxSize this). change (_pageCount t) with (Fin q).
  change (rotate t) with (rotate this) in Hb |- *.
  rewrite Hm.
  replace (gt (Fin m) (Fin 0) && gt (Fin q) (Fin m)) with true
    by (unfold gt, lt; symmetry; apply andb_true_iff; split; apply Z.ltb_lt; lia).
  rewrite Hb. cbn [fst snd].
  change (pages t) with (numbers_from 1 (Z.to_nat q)).
  rewrite slice_numbers_from by lia.
  rewrite Z2Nat.id by lia.
  replace (Z.min s q) with s by lia.
  unfold _applyEllipses.
  change (ellipses (set_pages t _)) with (ellipses this).
  destruct (ellipses this); [|now rewrite app_nil_r].
  cbn [andb]. unfold gt, lt.
  destruct (Z.ltb_spec 0 s); cbn [pages set_pages _pageCount];
    change (_pageCount t) with (Fin q); cbn [lt];
    destruct (Z.ltb_spec (s + m) q); cbn [pages set_pages push unshift];
    rewrite ?app_nil_r; try reflexivity.
  - unfold push, unshift. cbn [app]. now rewrite <- !app_assoc.
  - unfold push. cbn [app]. now rewrite <- !app_assoc.
Qed.

(** A page that is not a number stays so through the clamp, and the window
    then selects nothing. *)
Lemma display_windowed_NaN (this : NgbPagination) (q m : Z) :
  maxSize this = Fin m -> 0 < m < q -> page this = NaN ->
  pages (after_fill (filled this q)) = [].
Proof.
  intros Hm Hmq Hp. unfold after_fill. cbv zeta.
  unfold _getPageNoInRange.
  change (_pageCount (filled this q)) with (Fin q).
  change (page (filled this q)) with (page this).
  rewrite Hp.
  assert (Hc : getValueInRange NaN (Fin q) (Fin 1) = NaN).
  { unfold getValueInRange, gt, le, lt. destruct (Z.leb_spec q 0); [lia|reflexivity]. }
  rewrite Hc.
  set (t := set_page (filled this q) NaN).
  change (maxSize t) with (maxSize this). change (_pageCount t) with (Fin q).
  rewrite Hm.
  replace (gt (Fin m) (Fin 0) && gt (Fin q) (Fin m)) with true
    by (unfold gt, lt; symmetry; apply andb_true_iff; split; apply Z.ltb_lt; lia).
  assert (Hb : (if rotate t then _applyRotation t else _applyPagination t) = (NaN, NaN)).
  { destruct (rotate t).
    - unfold _applyRotation. change (page t) with NaN.
      change (maxSize t) with (maxSize this). rewrite Hm, floor_half_Fin.
      destruct (strict_eq _ _); reflexivity.
    - unfold _applyPagination. change (page t) with NaN. reflexivity. }
  rewrite Hb. cbn [fst snd].
  unfold _applyEllipses. destruct (ellipses _); reflexivity.
Qed.

(** The clamp against a page count of at least 1 gives a page in range,
    unless the requested page is not a number. *)
Lemma getValueInRange_cases (v : number) (q : Z) :
  1 <= q ->
  (exists c : Z, getValueInRange v (Fin q) (Fin 1) = Fin c /\ 1 <= c <= q)
  \/ v = NaN.
Proof.
  intros Hq. destruct v as [z| | |].
  - left. rewrite getValueInRange_Fin. eexists; split; [reflexivity | lia].
  - left. exists q. unfold getValueInRange, gt, le, lt.
    destruct (Z.leb_spec q 0); [lia|]. split; [reflexivity | lia].
  - left. exists 1. unfold getValueInRange, gt, le, lt.
    destruct (Z.leb_spec q 0); [lia|]. split; [reflexivity | lia].
  - now right.
Qed.

(** The Display Sequence when the window is not engaged: every page. *)
Lemma display_full (this : NgbPagination) (q : Z) :
  gt (maxSize this) (Fin 0) && gt (Fin q) (maxSize this) = false ->
  pages (after_fill (filled this q)) = numbers_from 1 (Z.to_nat q).
Proof.
  intros H. unfold after_fill. cbv zeta.
  change (maxSize (set_page (filled this q) _)) with (maxSize this).
  change (_pageCount (set_page (filled this q) _)) with (Fin q).
  now rewrite H.
Qed.

(** ** What a recompute leaves untouched *)

Lemma fill_pages_frame (fuel : nat) :
  forall (i : number) (t t' : NgbPagination),
    fill_pages fuel i t = Some t' -> t' = set_pages t (pages t').
Proof.
  induction fuel as [|fuel IH]; intros i t t'; simpl;
    destruct (le i (_pageCount t)); try discriminate.
  - intros [= <-]. now rewrite set_pages_same.
  - intros H. apply IH in H. now rewrite H at 1.
  - intros [= <-]. now rewrite set_pages_same.
Qed.

Lemma after_fill_frame (t : NgbPagination) :
  after_fill t
  = set_pages (set_page t (_getPageNoInRange t (page t))) (pages (after_fill t)).
Proof.
  unfold after_fill. cbv zeta.
  destruct (gt _ _ && gt _ _); [|now destruct t].
  unfold _applyEllipses.
  destruct t as [pc ps el ro cs ms pg sz ev]; cbn [ellipses set_pages set_page].
  destruct el; [|reflexivity].
  destruct (gt _ (Fin 0)); cbn [set_pages _pageCount]; destruct (lt _ _);
    reflexivity.
Qed.

(** A recompute re-derives the page count, clamps the page, rebuilds the
    Display Sequence, and changes nothing else; in particular it emits
    nothing. *)
Lemma ngOnChanges_frame (fuel : nat) (t t' : NgbPagination) :
  ngOnChanges fuel t = Some t' ->
  t' = mkNgbPagination (ceil (div (collectionSize t) (pageSize t))) (pages t')
         (ellipses t) (rotate t) (collectionSize t) (maxSize t) (page t')
         (pageSize t) (pageChange t).
Proof.
  rewrite ngOnChanges_after_fill.
  destruct (fill_pages _ _ _) as [u|] eqn:Hu; [|discriminate].
  intros [= <-]. apply fill_pages_frame in Hu.
  rewrite after_fill_frame. rewrite Hu. reflexivity.
Qed.

(** ** The claims *)

(** C7: for [collectionSize >= 0] and [pageSize > 0] the recompute returns
    and stores as page count [ceil(collectionSize / pageSize)], that is the
    one integer [pc] with [(pc - 1) * pageSize < collectionSize <= pc * pageSize];
    this count is 0 if and only if the collection is empty. *)
Theorem pageCount_is_ceiling (fuel : nat) (this : NgbPagination) (cs ps : Z) :
  collectionSize this = Fin cs -> pageSize this = Fin ps ->
  0 <= cs -> 0 < ps -> (Z.to_nat cs <= fuel)%nat ->
  exists (pc : Z) (this' : NgbPagination),
    ngOnChanges fuel this = Some this'
    /\ _pageCount this' = Fin pc
    /\ (pc - 1) * ps < cs <= pc * ps
    /\ (pc = 0 <-> cs = 0).
Proof.
  intros Hcs Hps Hcs0 Hps0 Hfuel.
  pose proof (pageCount_Fin this cs ps Hcs Hps Hps0) as Hq.
  pose proof (ceiling_bounds cs ps Hps0) as Hb.
  pose proof (pageCount_le_collectionSize cs ps Hcs0 Hps0) as Hle.
  set (pc := - (- cs / ps)) in *.
  exists pc, (after_fill (filled this pc)).
  split; [apply ngOnChanges_Fin; [assumption | lia]|].
  split; [rewrite after_fill_frame; reflexivity|].
  split; [exact Hb | nia].
Qed.

Lemma pageCount_is_ceiling_witness :
  exists (pc : Z) (this' : NgbPagination),
    ngOnChanges 95 (init (Fin 95) (Fin 10) (Fin 0) (Fin 0) false true) = Some this'
    /\ _pageCount this' = Fin pc
    /\ (pc - 1) * 10 < 95 <= pc * 10
    /\ (pc = 0 <-> 95 = 0).
Proof.
  apply (pageCount_is_ceiling 95
           (init (Fin 95) (Fin 10) (Fin 0) (Fin 0) false true) 95 10);
    [reflexivity | reflexivity | lia | lia | lia].
Defined.

(** C8: the page clamp returns a page in [[1, max(pageCount, 1)]]: it
    returns 1 when [pageCount <= 0] or [requested < 1], returns [pageCount]
    when [requested > pageCount >= 1], and returns [requested] unchanged
    when it already lies in [[1, pageCount]]. *)
Theorem getPageNoInRange_clamps (this : NgbPagination) (pageCount requested : Z) :
  _pageCount this = Fin pageCount ->
  exists r : Z,
    _getPageNoInRange this (Fin requested) = Fin r
    /\ 1 <= r <= Z.max pageCount 1
    /\ (pageCount <= 0 \/ requested < 1 -> r = 1)
    /\ (1 <= pageCount < requested -> r = pageCount)
    /\ (1 <= requested <= pageCount -> r = requested).
Proof.
  intros Hpc. unfold _getPageNoInRange. rewrite Hpc.
  unfold getValueInRange, gt, le, lt.
  destruct (Z.leb_spec pageCount 0); cbn [orb].
  - exists 1. repeat split; lia.
  - destruct (Z.ltb_spec requested 1).
    + exists 1. repeat split; lia.
    + destruct (Z.ltb_spec pageCount requested).
      * exists pageCount. repeat split; lia.
      * exists requested. repeat split; lia.
Qed.

Lemma getPageNoInRange_clamps_witness :
  exists r : Z,
    _getPageNoInRange (set_pageCount (init (Fin 95) (Fin 10) (Fin 0) (Fin 0) false true) (Fin 10))
      (Fin 42) = Fin r
    /\ 1 <= r <= Z.max 10 1
    /\ (10 <= 0 \/ 42 < 1 -> r = 1)
    /\ (1 <= 10 < 42 -> r = 10)
    /\ (1 <= 42 <= 10 -> r = 42).
Proof.
  apply (getPageNoInRange_clamps
           (set_pageCount (init (Fin 95) (Fin 10) (Fin 0) (Fin 0) false true) (Fin 10))
           10 42).
  reflexivity.
Defined.

(** C1, as the code has it: with [pageSize = 0] the division is a division
    by zero.  For an empty collection the page count is [NaN]; the loop
    body never runs, so the recompute returns with an empty Display
    Sequence.  For a non-empty collection the page count is [PInf] and the
    fill loop has no bound: no amount of fuel lets the recompute return. *)
Theorem ngOnChanges_pageSize_zero (this : NgbPagination) (cs : Z) :
  collectionSize this = Fin cs -> pageSize this = Fin 0 -> 0 <= cs ->
  (cs = 0 ->
   forall fuel : nat, exists this' : NgbPagination,
     ngOnChanges fuel this = Some this'
     /\ _pageCount this' = NaN /\ pages this' = [])
  /\ (0 < cs ->
      ceil (div (collectionSize this) (pageSize this)) = PInf
      /\ forall fuel : nat, ngOnChanges fuel this = None).
Proof.
  intros Hcs Hps Hcs0. split.
  - intros -> fuel.
    rewrite ngOnChanges_after_fill, Hcs, Hps.
    change (ceil (div (Fin 0) (Fin 0))) with NaN.
    rewrite fill_pages_NaN by reflexivity.
    eexists. split; [reflexivity|].
    split; [rewrite after_fill_frame; reflexivity|].
    unfold after_fill. cbv zeta.
    change (_pageCount (set_page _ _)) with NaN.
    replace (gt NaN _) with false by (unfold gt, lt; now destruct (maxSize _)).
    now rewrite andb_false_r.
  - intros Hpos.
    assert (Hq : ceil (div (collectionSize this) (pageSize this)) = PInf).
    { rewrite Hcs, Hps. unfold div. cbn [Z.eqb].
      destruct (Z.ltb_spec 0 cs); [reflexivity | lia]. }
    split; [exact Hq|].
    intros fuel. rewrite ngOnChanges_after_fill, Hq.
    now rewrite fill_pages_PInf.
Qed.

Lemma ngOnChanges_pageSize_zero_witness :
  (30 = 0 ->
   forall fuel : nat, exists this' : NgbPagination,
     ngOnChanges fuel (init (Fin 30) (Fin 0) (Fin 0) (Fin 0) false true) = Some this'
     /\ _pageCount this' = NaN /\ pages this' = [])
  /\ (0 < 30 ->
      ceil (div (Fin 30) (Fin 0)) = PInf
      /\ forall fuel : nat,
           ngOnChanges fuel (init (Fin 30) (Fin 0) (Fin 0) (Fin 0) false true) = None).
Proof.
  apply (ngOnChanges_pageSize_zero
           (init (Fin 30) (Fin 0) (Fin 0) (Fin 0) false true) 30);
    [reflexivity | reflexivity | lia].
Defined.

(** C1, as the claim has it, fails at [pageSize = 0]: with 30 items the
    recompute never returns, and with no items it returns with a page count
    of [NaN] rather than 0. *)
Lemma pageSize_zero_not_degenerate :
  (forall fuel : nat,
     ngOnChanges fuel (init (Fin 30) (Fin 0) (Fin 0) (Fin 0) false true) = None)
  /\ option_map _pageCount
       (ngOnChanges 0 (init (Fin 0) (Fin 0) (Fin 0) (Fin 0) false true))
     = Some NaN.
Proof.
  split; [|reflexivity].
  intros fuel. rewrite ngOnChanges_after_fill.
  now rewrite fill_pages_PInf.
Qed.

(** C2: with [0 < maxSize < pageCount] and the page in [[1, pageCount]],
    the rotation takes [leftOffset = floor(maxSize / 2)] and [rightOffset =
    leftOffset - 1] for an even [maxSize], else [leftOffset], and returns
    [[0, maxSize)] near the start, else [[pageCount - maxSize, pageCount)]
    near the end, else [[page - leftOffset - 1, page + rightOffset)].  For
    20 pages and [maxSize = 5] the window at page 1 is pages 1 to 5 and at
    page 20 it is pages 16 to 20. *)
Theorem applyRotation_window (this : NgbPagination) (pageCount maxVisible current : Z) :
  _pageCount this = Fin pageCount -> maxSize this = Fin maxVisible ->
  page this = Fin current ->
  0 < maxVisible < pageCount -> 1 <= current <= pageCount ->
  let leftOffset := maxVisible / 2 in
  let rightOffset := if Z.even maxVisible then leftOffset - 1 else leftOffset in
  _applyRotation this
  = (if current <=? leftOffset then (Fin 0, Fin maxVisible)
     else if pageCount - current <? leftOffset
          then (Fin (pageCount - maxVisible), Fin pageCount)
          else (Fin (current - leftOffset - 1), Fin (current + rightOffset)))
  /\ option_map pages (run 20 1 5 1 true false) = Some (map Fin [1; 2; 3; 4; 5])
  /\ option_map pages (run 20 1 5 20 true false) = Some (map Fin [16; 17; 18; 19; 20]).
Proof.
  intros Hpc Hm Hp _ _. cbv zeta.
  split; [|split; reflexivity].
  now rewrite (applyRotation_Fin this pageCount maxVisible current).
Qed.

Lemma applyRotation_window_witness :
  _applyRotation
    (mkNgbPagination (Fin 20) (numbers_from 1 20) true true (Fin 200) (Fin 4)
       (Fin 10) (Fin 10) [])
  = (Fin 7, Fin 11).
Proof.
  apply (applyRotation_window
           (mkNgbPagination (Fin 20) (numbers_from 1 20) true true (Fin 200) (Fin 4)
              (Fin 10) (Fin 10) [])
           20 4 10); [reflexivity | reflexivity | reflexivity | lia | lia].
Defined.

(** C6: with [0 < maxSize < pageCount] and the page in [[1, pageCount]],
    the pagination-blocks strategy returns [[block * maxSize, block *
    maxSize + maxSize)] for [block = ceil(page / maxSize) - 1], the integer
    with [block * maxSize < page <= (block + 1) * maxSize].  For 10 pages,
    [maxSize = 3] and page 4 the window is [[3, 6)], pages 4 to 6. *)
Theorem applyPagination_window (this : NgbPagination) (pageCount maxVisible current : Z) :
  _pageCount this = Fin pageCount -> maxSize this = Fin maxVisible ->
  page this = Fin current ->
  0 < maxVisible < pageCount -> 1 <= current <= pageCount ->
  (exists block : Z,
     block * maxVisible < current <= (block + 1) * maxVisible
     /\ _applyPagination this
        = (Fin (block * maxVisible), Fin (block * maxVisible + maxVisible)))
  /\ _applyPagination
       (mkNgbPagination (Fin 10) (numbers_from 1 10) false false (Fin 100) (Fin 3)
          (Fin 4) (Fin 10) [])
     = (Fin 3, Fin 6)
  /\ option_map pages (run 100 10 3 4 false false) = Some (map Fin [4; 5; 6]).
Proof.
  intros _ Hm Hp Hmq _.
  split; [|split; reflexivity].
  exists (- (- current / maxVisible) - 1). split.
  - pose proof (ceiling_bounds current maxVisible ltac:(lia)). lia.
  - rewrite (applyPagination_Fin this maxVisible current) by (assumption || lia).
    reflexivity.
Qed.

Lemma applyPagination_window_witness :
  exists block : Z,
    block * 3 < 8 <= (block + 1) * 3
    /\ _applyPagination
         (mkNgbPagination (Fin 10) (numbers_from 1 10) false true (Fin 100) (Fin 3)
            (Fin 8) (Fin 10) [])
       = (Fin (block * 3), Fin (block * 3 + 3)).
Proof.
  apply (applyPagination_window
           (mkNgbPagination (Fin 10) (numbers_from 1 10) false true (Fin 100) (Fin 3)
              (Fin 8) (Fin 10) [])
           10 3 8); [reflexivity | reflexivity | reflexivity | lia | lia].
Defined.

(** C3: after the window [[start, end)] has been cut out of [pageCount]
    pages, the annotator puts page 1 and an ellipsis in front of it when
    [start > 0], and an ellipsis and page [pageCount] behind it when [end <
    pageCount]; both may apply, and with ellipses off the window is
    published as it is.  For 20 pages, [maxSize = 5], rotation, page 10 and
    ellipses on, the Display Sequence is [[1, ellipsis, 8, 9, 10, 11, 12,
    ellipsis, 20]]. *)
Theorem applyEllipses_sequence (this : NgbPagination) (pageCount start end_ : Z) :
  _pageCount this = Fin pageCount ->
  pages (_applyEllipses this (Fin start) (Fin end_))
  = (if ellipses this
     then (if 0 <? start then [Fin 1; ellipsis] else [])
          ++ pages this
          ++ (if end_ <? pageCount then [ellipsis; Fin pageCount] else [])
     else pages this)
  /\ option_map pages (run 20 1 5 10 true true)
     = Some ([Fin 1; ellipsis] ++ map Fin [8; 9; 10; 11; 12] ++ [ellipsis; Fin 20]).
Proof.
  intros Hpc. split; [|reflexivity].
  unfold _applyEllipses. destruct (ellipses this); [|reflexivity].
  unfold gt, lt.
  destruct (0 <? start); cbn [set_pages _pageCount pages];
    rewrite Hpc; cbn [lt]; destruct (end_ <? pageCount);
    cbn [set_pages pages]; unfold push, unshift, ellipsis;
    rewrite ?app_nil_r; cbn [app]; rewrite <- ?app_assoc; reflexivity.
Qed.

Lemma applyEllipses_sequence_witness :
  pages
    (_applyEllipses
       (mkNgbPagination (Fin 20) (map Fin [8; 9; 10; 11; 12]) true true (Fin 200)
          (Fin 5) (Fin 10) (Fin 10) [])
       (Fin 7) (Fin 12))
  = [Fin 1; ellipsis; Fin 8; Fin 9; Fin 10; Fin 11; Fin 12; ellipsis; Fin 20].
Proof.
  apply (applyEllipses_sequence
           (mkNgbPagination (Fin 20) (map Fin [8; 9; 10; 11; 12]) true true (Fin 200)
              (Fin 5) (Fin 10) (Fin 10) [])
           20 7 12).
  reflexivity.
Defined.

Lemma shown_pages_app (l1 l2 : list number) :
  shown_pages (l1 ++ l2) = shown_pages l1 + shown_pages l2.
Proof. unfold shown_pages. rewrite filter_app, length_app. lia. Qed.

Lemma shown_pages_le_length (l : list number) :
  shown_pages l <= Z.of_nat (length l).
Proof.
  unfold shown_pages. pose proof (filter_length_le (fun e => negb (_isEllipsis e)) l).
  lia.
Qed.

(** C4: with [maxSize > 0] and more pages than [maxSize], the recompute
    publishes at most [maxSize] real pages, plus at most the two boundary
    pages when ellipses are on; in every case at most [maxSize + 2]. *)
Theorem windowed_display_size (fuel : nat) (this : NgbPagination) (cs ps m : Z) :
  collectionSize this = Fin cs -> pageSize this = Fin ps -> maxSize this = Fin m ->
  0 <= cs -> 0 < ps -> 0 < m -> (Z.to_nat cs <= fuel)%nat ->
  exists (this' : NgbPagination) (pc : Z),
    ngOnChanges fuel this = Some this'
    /\ _pageCount this' = Fin pc
    /\ (m < pc ->
        shown_pages (pages this') <= m + (if ellipses this then 2 else 0)
        /\ shown_pages (pages this') <= m + 2).
Proof.
  intros Hcs Hps Hm Hcs0 Hps0 Hm0 Hfuel.
  pose proof (pageCount_Fin this cs ps Hcs Hps Hps0) as Hq.
  pose proof (pageCount_le_collectionSize cs ps Hcs0 Hps0) as Hle.
  set (q := - (- cs / ps)) in *.
  exists (after_fill (filled this q)), q.
  split; [apply ngOnChanges_Fin; [assumption | lia]|].
  split; [rewrite after_fill_frame; reflexivity|].
  intros Hmq.
  assert (Hmain : shown_pages (pages (after_fill (filled this q)))
                  <= m + (if ellipses this then 2 else 0)).
  { destruct (getValueInRange_cases (page this) q ltac:(lia)) as [(c & Hc & Hcq)|Hnan].
    - destruct (display_windowed this q m c Hm ltac:(lia) Hc Hcq)
        as (s & Hs1 & Hs2 & _ & ->).
      rewrite !shown_pages_app.
      pose proof (shown_pages_le_length
                    (numbers_from (1 + s) (Z.to_nat (Z.min (s + m) q - s)))) as Hw.
      rewrite numbers_from_length in Hw.
      assert (Hpre : shown_pages (if ellipses this && (0 <? s)
                                  then [Fin 1; Fin (-1)] else [])
                     <= (if ellipses this then 1 else 0)).
      { destruct (ellipses this), (0 <? s); cbn; lia. }
      assert (Hsuf : shown_pages (if ellipses this && (s + m <? q)
                                  then [Fin (-1); Fin q] else [])
                     <= (if ellipses this then 1 else 0)).
      { destruct (ellipses this), (s + m <? q); cbn; try lia.
        unfold shown_pages; cbn. destruct (q =? -1); cbn; lia. }
      destruct (ellipses this); lia.
    - rewrite (display_windowed_NaN this q m Hm ltac:(lia) Hnan).
      cbn. destruct (ellipses this); lia. }
  split; [exact Hmain|]. destruct (ellipses this); lia.
Qed.

Lemma windowed_display_size_witness :
  exists (this' : NgbPagination) (pc : Z),
    ngOnChanges 200 (init (Fin 200) (Fin 10) (Fin 5) (Fin 10) true true) = Some this'
    /\ _pageCount this' = Fin pc
    /\ (5 < pc ->
        shown_pages (pages this') <= 5 + 2 /\ shown_pages (pages this') <= 5 + 2).
Proof.
  apply (windowed_display_size 200
           (init (Fin 200) (Fin 10) (Fin 5) (Fin 10) true true) 200 10 5);
    [reflexivity | reflexivity | reflexivity | lia | lia | lia | lia].
Defined.

Lemma display_entry_page (pc v : Z) : 1 <= v <= pc -> display_entry pc (Fin v).
Proof.
  intros Hv. right. exists v. split; [reflexivity|]. split; [assumption|].
  unfold _isEllipsis, strict_eq. apply Z.eqb_neq. lia.
Qed.

Lemma display_entry_ellipsis (pc : Z) : display_entry pc (Fin (-1)).
Proof. left. split; reflexivity. Qed.

(** C10: after a recompute with [collectionSize >= 0] and [pageSize > 0]
    every entry of the Display Sequence is the ellipsis marker [-1] or a
    real page in [[1, pageCount]], and [_isEllipsis] holds of exactly the
    former. *)
Theorem display_entries_wellformed (fuel : nat) (this : NgbPagination) (cs ps : Z) :
  collectionSize this = Fin cs -> pageSize this = Fin ps ->
  0 <= cs -> 0 < ps -> (Z.to_nat cs <= fuel)%nat ->
  exists (this' : NgbPagination) (pc : Z),
    ngOnChanges fuel this = Some this'
    /\ _pageCount this' = Fin pc
    /\ Forall (display_entry pc) (pages this').
Proof.
  intros Hcs Hps Hcs0 Hps0 Hfuel.
  pose proof (pageCount_Fin this cs ps Hcs Hps Hps0) as Hq.
  pose proof (pageCount_le_collectionSize cs ps Hcs0 Hps0) as Hle.
  set (q := - (- cs / ps)) in *.
  exists (after_fill (filled this q)), q.
  split; [apply ngOnChanges_Fin; [assumption | lia]|].
  split; [rewrite after_fill_frame; reflexivity|].
  destruct (gt (maxSize this) (Fin 0) && gt (Fin q) (maxSize this)) eqn:Hw.
  - apply windowing_engaged in Hw as (m & Hm & Hmq).
    destruct (getValueInRange_cases (page this) q ltac:(lia)) as [(c & Hc & Hcq)|Hnan].
    + destruct (display_windowed this q m c Hm Hmq Hc Hcq)
        as (s & Hs1 & Hs2 & _ & ->).
      rewrite !Forall_app. repeat split.
      * destruct (ellipses this && (0 <? s)); [|apply Forall_nil].
        apply Forall_cons; [apply display_entry_page; lia|].
        apply Forall_cons; [apply display_entry_ellipsis | apply Forall_nil].
      * apply numbers_from_Forall. intros v Hv. apply display_entry_page. lia.
      * destruct (ellipses this && (s + m <? q)); [|apply Forall_nil].
        apply Forall_cons; [apply display_entry_ellipsis|].
        apply Forall_cons; [apply display_entry_page; lia | apply Forall_nil].
    + rewrite (display_windowed_NaN this q m Hm Hmq Hnan). constructor.
  - rewrite (display_full this q Hw).
    apply numbers_from_Forall. intros v Hv. apply display_entry_page. lia.
Qed.

Lemma display_entries_wellformed_witness :
  exists (this' : NgbPagination) (pc : Z),
    ngOnChanges 200 (init (Fin 200) (Fin 10) (Fin 5) (Fin 10) true true) = Some this'
    /\ _pageCount this' = Fin pc
    /\ Forall (display_entry pc) (pages this').
Proof.
  apply (display_entries_wellformed 200
           (init (Fin 200) (Fin 10) (Fin 5) (Fin 10) true true) 200 10);
    [reflexivity | reflexivity | lia | lia | lia].
Defined.

(** A page that is already clamped goes through the rest of the recompute
    as the page it was clamped from does. *)
Lemma after_fill_clamped (t : NgbPagination) :
  after_fill (set_page t (_getPageNoInRange t (page t))) = after_fill t.
Proof.
  unfold after_fill. cbv zeta. unfold _getPageNoInRange.
  destruct t as [pc ps el ro cs ms pg sz ev]. cbn [set_page page _pageCount].
  now rewrite getValueInRange_idempotent.
Qed.

Lemma filled_after_fill (this : NgbPagination) (q : Z) :
  filled (after_fill (filled this q)) q
  = set_page (filled this q)
      (_getPageNoInRange (filled this q) (page (filled this q))).
Proof.
  rewrite after_fill_frame. now destruct this.
Qed.

(** With [collectionSize >= 0], [pageSize > 0] and fuel for one round per
    item, the recompute returns. *)
Lemma ngOnChanges_returns (fuel : nat) (this : NgbPagination) (cs ps : Z) :
  collectionSize this = Fin cs -> pageSize this = Fin ps ->
  0 <= cs -> 0 < ps -> (Z.to_nat cs <= fuel)%nat ->
  ngOnChanges fuel this = Some (after_fill (filled this (- ((- cs) / ps)))).
Proof.
  intros Hcs Hps Hcs0 Hps0 Hfuel.
  pose proof (pageCount_le_collectionSize cs ps Hcs0 Hps0).
  apply ngOnChanges_Fin; [now apply pageCount_Fin | lia].
Qed.

(** C9: with [collectionSize >= 0] and [pageSize > 0] a recompute returns a
    state that a second recompute returns unchanged: the Display Sequence,
    the current page and every other field are those of the first run. *)
Theorem ngOnChanges_idempotent (fuel : nat) (this : NgbPagination) (cs ps : Z) :
  collectionSize this = Fin cs -> pageSize this = Fin ps ->
  0 <= cs -> 0 < ps -> (Z.to_nat cs <= fuel)%nat ->
  exists this' : NgbPagination,
    ngOnChanges fuel this = Some this'
    /\ ngOnChanges fuel this' = Some this'.
Proof.
  intros Hcs Hps Hcs0 Hps0 Hfuel.
  pose proof (pageCount_Fin this cs ps Hcs Hps Hps0) as Hq.
  pose proof (pageCount_le_collectionSize cs ps Hcs0 Hps0) as Hle.
  set (q := - (- cs / ps)) in *.
  exists (after_fill (filled this q)).
  split; [apply ngOnChanges_Fin; [assumption | lia]|].
  rewrite (ngOnChanges_Fin fuel _ q); [| |lia].
  - now rewrite filled_after_fill, after_fill_clamped.
  - rewrite after_fill_frame. exact Hq.
Qed.

Lemma ngOnChanges_idempotent_witness :
  exists this' : NgbPagination,
    ngOnChanges 200 (init (Fin 200) (Fin 10) (Fin 5) (Fin 42) true true) = Some this'
    /\ ngOnChanges 200 this' = Some this'.
Proof.
  apply (ngOnChanges_idempotent 200
           (init (Fin 200) (Fin 10) (Fin 5) (Fin 42) true true) 200 10);
    [reflexivity | reflexivity | lia | lia | lia].
Defined.

Lemma set_page_same (this : NgbPagination) : set_page this (page this) = this.
Proof. now destruct this. Qed.

Lemma strict_eq_Fin (r : Z) (x : number) :
  strict_eq (Fin r) x = true <-> Fin r = x.
Proof.
  destruct x as [z| | |]; cbn [strict_eq];
    try (split; intros; discriminate).
  rewrite Z.eqb_eq. split; congruence.
Qed.

(** C5: [selectPage] clamps the target against the page count; when the
    clamped page is the current page it emits nothing and runs the
    recompute on the unchanged state; when it differs it emits the clamped
    page, once, and runs the recompute on the state holding that page.  In
    particular selecting the current page, itself in range, emits nothing.
    When the stored page count is the one the inputs give, the emitted page
    is also the current page once the recompute has run. *)
Theorem selectPage_clamps_and_emits
    (fuel : nat) (this : NgbPagination) (target pc cs ps : Z) :
  _pageCount this = Fin pc ->
  collectionSize this = Fin cs -> pageSize this = Fin ps ->
  0 <= cs -> 0 < ps -> (Z.to_nat cs <= fuel)%nat ->
  exists (r : Z) (this' : NgbPagination),
    _getPageNoInRange this (Fin target) = Fin r
    /\ 1 <= r <= Z.max pc 1
    /\ (1 <= target <= pc -> r = target)
    /\ selectPage fuel this (Fin target) = Some this'
    /\ (Fin r = page this ->
        ngOnChanges fuel this = Some this'
        /\ pageChange this' = pageChange this)
    /\ (Fin r <> page this ->
        ngOnChanges fuel (emit (set_page this (Fin r)) (Fin r)) = Some this'
        /\ pageChange this' = pageChange this ++ [Fin r])
    /\ (page this = Fin target -> 1 <= target <= Z.max pc 1 ->
        pageChange this' = pageChange this)
    /\ (ceil (div (collectionSize this) (pageSize this)) = _pageCount this ->
        page this' = Fin r).
Proof.
  intros Hpc Hcs Hps Hcs0 Hps0 Hfuel.
  set (r := Z.max 1 (Z.min target pc)).
  assert (Hr : _getPageNoInRange this (Fin target) = Fin r).
  { unfold _getPageNoInRange. rewrite Hpc. apply getValueInRange_Fin. }
  assert (Hrange : 1 <= r <= Z.max pc 1) by (unfold r; lia).
  assert (Hid : 1 <= target <= pc -> r = target) by (unfold r; lia).
  assert (Hrun : forall t : NgbPagination,
             collectionSize t = Fin cs -> pageSize t = Fin ps ->
             exists t', ngOnChanges fuel t = Some t'
                        /\ pageChange t' = pageChange t
                        /\ page t'
                           = getValueInRange (page t) (Fin (- ((- cs) / ps))) (Fin 1)).
  { intros t Ht1 Ht2. eexists. split; [|split].
    - now apply (ngOnChanges_returns fuel t cs ps).
    - now rewrite after_fill_frame.
    - now rewrite after_fill_frame. }
  assert (Hfresh : ceil (div (collectionSize this) (pageSize this)) = _pageCount this ->
                   getValueInRange (Fin r) (Fin (- ((- cs) / ps))) (Fin 1) = Fin r).
  { intros Hc. rewrite (pageCount_Fin this cs ps Hcs Hps Hps0), Hpc in Hc.
    injection Hc as ->. rewrite getValueInRange_Fin. f_equal. unfold r. lia. }
  assert (Hsel : selectPage fuel this (Fin target)
                 = ngOnChanges fuel
                     (if strict_eq (Fin r) (page this) then this
                      else emit (set_page this (Fin r)) (Fin r))).
  { unfold selectPage. cbv zeta. rewrite Hr.
    change (page (set_page this (Fin r))) with (Fin r).
    unfold strict_neq.
    destruct (strict_eq (Fin r) (page this)) eqn:E; cbn [negb]; [|reflexivity].
    apply strict_eq_Fin in E.
    replace (set_page this (Fin r)) with this; [reflexivity|].
    rewrite E. symmetry. apply set_page_same. }
  destruct (strict_eq (Fin r) (page this)) eqn:E.
  - apply strict_eq_Fin in E.
    destruct (Hrun this Hcs Hps) as (t' & Ht' & Hev & Hpg).
    exists r, t'. rewrite Hsel.
    refine (conj Hr (conj Hrange (conj Hid (conj Ht'
              (conj _ (conj _ (conj _ _))))))).
    + intros _. now split.
    + intros Hne. contradiction.
    + intros _ _. exact Hev.
    + intros Hc. rewrite Hpg, <- E. now apply Hfresh.
  - assert (Hne : Fin r <> page this).
    { intros H. apply strict_eq_Fin in H. congruence. }
    destruct (Hrun (emit (set_page this (Fin r)) (Fin r)) Hcs Hps)
      as (t' & Ht' & Hev & Hpg).
    exists r, t'. rewrite Hsel.
    refine (conj Hr (conj Hrange (conj Hid (conj Ht'
              (conj _ (conj _ (conj _ _))))))).
    + intros H. contradiction.
    + intros _. now split.
    + intros Hp Ht. exfalso. apply Hne. rewrite Hp. f_equal. unfold r. lia.
    + intros Hc. rewrite Hpg. now apply Hfresh.
Qed.

Lemma selectPage_clamps_and_emits_witness :
  exists (r : Z) (this' : NgbPagination),
    _getPageNoInRange
      (mkNgbPagination (Fin 10) (numbers_from 1 10) true false (Fin 95) (Fin 0)
         (Fin 3) (Fin 10) [])
      (Fin 42) = Fin r
    /\ 1 <= r <= Z.max 10 1
    /\ (1 <= 42 <= 10 -> r = 42)
    /\ selectPage 95
         (mkNgbPagination (Fin 10) (numbers_from 1 10) true false (Fin 95) (Fin 0)
            (Fin 3) (Fin 10) [])
         (Fin 42) = Some this'
    /\ (Fin r = Fin 3 ->
        ngOnChanges 95
          (mkNgbPagination (Fin 10) (numbers_from 1 10) true false (Fin 95) (Fin 0)
             (Fin 3) (Fin 10) [])
        = Some this'
        /\ pageChange this' = [])
    /\ (Fin r <> Fin 3 ->
        ngOnChanges 95
          (emit
             (set_page
                (mkNgbPagination (Fin 10) (numbers_from 1 10) true false (Fin 95)
                   (Fin 0) (Fin 3) (Fin 10) [])
                (Fin r))
             (Fin r))
        = Some this'
        /\ pageChange this' = [] ++ [Fin r])
    /\ (Fin 3 = Fin 42 -> 1 <= 42 <= Z.max 10 1 -> pageChange this' = [])
    /\ (ceil (div (Fin 95) (Fin 10)) = Fin 10 -> page this' = Fin r).
Proof.
  apply (selectPage_clamps_and_emits 95
           (mkNgbPagination (Fin 10) (numbers_from 1 10) true false (Fin 95) (Fin 0)
              (Fin 3) (Fin 10) [])
           42 10 95 10);
    [reflexivity | reflexivity | reflexivity | lia | lia | lia].
Defined.

Example selectPage_out_of_range :
  option_map (fun t => (page t, pageChange t))
    (selectPage 95
       (mkNgbPagination (Fin 10) (numbers_from 1 10) true false (Fin 95) (Fin 0)
          (Fin 3) (Fin 10) [])
       (Fin 42))
  = Some (Fin 10, [Fin 10]).
Proof. reflexivity. Qed.

Example selectPage_current :
  option_map (fun t => (page t, pageChange t))
    (selectPage 95
       (mkNgbPagination (Fin 10) (numbers_from 1 10) true false (Fin 95) (Fin 0)
          (Fin 3) (Fin 10) [])
       (Fin 3))
  = Some (Fin 3, []).
Proof. reflexivity. Qed.

(** ** Further properties of the component *)

(** *** The recompute as a function of the inputs and the page *)

Lemma after_fill_filled_ext (t u : NgbPagination) (q : Z) :
  ellipses t = ellipses u -> rotate t = rotate u ->
  collectionSize t = collectionSize u -> maxSize t = maxSize u ->
  page t = page u -> pageSize t = pageSize u -> pageChange t = pageChange u ->
  after_fill (filled t q) = after_fill (filled u q).
Proof.
  destruct t, u; cbn [ellipses rotate collectionSize maxSize page pageSize pageChange].
  intros -> -> -> -> -> -> ->. reflexivity.
Qed.

Lemma applyEllipses_emit (t : NgbPagination) (start end_ e : number) :
  _applyEllipses (emit t e) start end_ = emit (_applyEllipses t start end_) e.
Proof.
  destruct t as [pc ps el ro cs ms pg sz ev]. unfold _applyEllipses.
  cbn [emit ellipses]. destruct el; [|reflexivity].
  destruct (gt start (Fin 0)); cbn [emit set_pages _pageCount pages];
    destruct (lt end_ pc); reflexivity.
Qed.

Lemma after_fill_emit (t : NgbPagination) (e : number) :
  after_fill (emit t e) = emit (after_fill t) e.
Proof.
  assert (H : forall u : NgbPagination,
             (if gt (maxSize u) (Fin 0) && gt (_pageCount u) (maxSize u)
              then
                let bounds :=
                  if rotate u then _applyRotation u else _applyPagination u in
                _applyEllipses
                  (emit (set_pages u (slice (pages u) (fst bounds) (snd bounds))) e)
                  (fst bounds) (snd bounds)
              else emit u e)
             = emit
                 (if gt (maxSize u) (Fin 0) && gt (_pageCount u) (maxSize u)
                  then
                    let bounds :=
                      if rotate u then _applyRotation u else _applyPagination u in
                    _applyEllipses
                      (set_pages u (slice (pages u) (fst bounds) (snd bounds)))
                      (fst bounds) (snd bounds)
                  else u) e).
  { intros u. destruct (gt _ _ && gt _ _); [|reflexivity].
    cbv zeta. apply applyEllipses_emit. }
  destruct t as [pc ps el ro cs ms pg sz ev].
  exact (H (set_page (mkNgbPagination pc ps el ro cs ms pg sz ev)
              (_getPageNoInRange (mkNgbPagination pc ps el ro cs ms pg sz ev) pg))).
Qed.

Lemma after_fill_filled_emit (t : NgbPagination) (q : Z) (e : number) :
  after_fill (filled (emit t e) q) = emit (after_fill (filled t q)) e.
Proof.
  rewrite <- after_fill_emit. now destruct t.
Qed.

Lemma after_fill_filled_fixpoint (t : NgbPagination) (q : Z) :
  after_fill (filled (after_fill (filled t q)) q) = after_fill (filled t q).
Proof. now rewrite filled_after_fill, after_fill_clamped. Qed.

Lemma page_after_fill (t : NgbPagination) (q : Z) :
  page (after_fill (filled t q)) = getValueInRange (page t) (Fin q) (Fin 1).
Proof. now rewrite after_fill_frame. Qed.

(** A state that a recompute returns unchanged holds the page count of its
    inputs and a clamped page. *)
Lemma recomputed_state (fuel : nat) (this : NgbPagination) (cs ps : Z) :
  collectionSize this = Fin cs -> pageSize this = Fin ps ->
  0 <= cs -> 0 < ps -> (Z.to_nat cs <= fuel)%nat ->
  ngOnChanges fuel this = Some this ->
  this = after_fill (filled this (- ((- cs) / ps)))
  /\ _pageCount this = Fin (- ((- cs) / ps))
  /\ page this = getValueInRange (page this) (Fin (- ((- cs) / ps))) (Fin 1).
Proof.
  intros Hcs Hps Hcs0 Hps0 Hfuel Hfix.
  rewrite (ngOnChanges_returns fuel this cs ps) in Hfix by assumption.
  injection Hfix as Hfix. symmetry in Hfix.
  split; [exact Hfix|]. split.
  - rewrite Hfix, after_fill_frame. reflexivity.
  - rewrite Hfix at 1. apply page_after_fill.
Qed.

(** What [selectPage] returns when the clamp gives the finite page [r]. *)
Lemma selectPage_result (fuel : nat) (this : NgbPagination) (cs ps r : Z)
    (target : number) :
  collectionSize this = Fin cs -> pageSize this = Fin ps ->
  0 <= cs -> 0 < ps -> (Z.to_nat cs <= fuel)%nat ->
  _getPageNoInRange this target = Fin r ->
  selectPage fuel this target
  = Some (if strict_eq (Fin r) (page this)
          then after_fill (filled this (- ((- cs) / ps)))
          else emit (after_fill (filled (set_page this (Fin r)) (- ((- cs) / ps))))
                 (Fin r)).
Proof.
  intros Hcs Hps Hcs0 Hps0 Hfuel Hr.
  unfold selectPage. cbv zeta. rewrite Hr.
  change (page (set_page this (Fin r))) with (Fin r).
  unfold strict_neq.
  destruct (strict_eq (Fin r) (page this)) eqn:E; cbn [negb].
  - apply strict_eq_Fin in E.
    replace (set_page this (Fin r)) with this
      by (rewrite E; symmetry; apply set_page_same).
    now apply ngOnChanges_returns.
  - rewrite (ngOnChanges_returns fuel _ cs ps) by assumption.
    now rewrite after_fill_filled_emit.
Qed.

(** *** The shape of the Display Sequence *)

Lemma getValueInRange_Fin_range (v : number) (q c : Z) :
  1 <= q -> getValueInRange v (Fin q) (Fin 1) = Fin c -> 1 <= c <= q.
Proof.
  intros Hq Hc.
  destruct (getValueInRange_cases v q Hq) as [(c' & Hc' & Hr)| ->].
  - rewrite Hc in Hc'. injection Hc' as ->. exact Hr.
  - unfold getValueInRange, gt, le, lt in Hc.
    destruct (Z.leb_spec q 0); [lia | discriminate].
Qed.

(** Windowed or not, the Display Sequence is one run of [n] consecutive
    pages after page [s], holding the clamped page [c], with the boundary
    groups where ellipses are on and the run stops short of a boundary. *)
Lemma display_shape (this : NgbPagination) (q c : Z) :
  1 <= q -> getValueInRange (page this) (Fin q) (Fin 1) = Fin c ->
  exists s n : Z,
    0 <= s /\ s < c /\ c <= s + n /\ s + n <= q
    /\ pages (after_fill (filled this q))
       = (if ellipses this && (0 <? s) then [Fin 1; Fin (-1)] else [])
         ++ numbers_from (1 + s) (Z.to_nat n)
         ++ (if ellipses this && (s + n <? q) then [Fin (-1); Fin q] else []).
Proof.
  intros Hq Hc.
  pose proof (getValueInRange_Fin_range _ q c Hq Hc) as Hcq.
  destruct (gt (maxSize this) (Fin 0) && gt (Fin q) (maxSize this)) eqn:Hw.
  - apply windowing_engaged in Hw as (m & Hm & Hmq).
    destruct (display_windowed this q m c Hm Hmq Hc Hcq)
      as (s & Hs1 & Hs2 & _ & Hpages).
    exists s, (Z.min (s + m) q - s).
    repeat (split; [lia|]).
    rewrite Hpages. do 3 f_equal.
    destruct (Z.ltb_spec (s + m) q), (Z.ltb_spec (s + (Z.min (s + m) q - s)) q);
      try reflexivity; lia.
  - exists 0, q. repeat (split; [lia|]).
    rewrite (display_full this q Hw), Z.ltb_irrefl.
    destruct (Z.ltb_spec (0 + q) q); [lia|].
    rewrite !andb_false_r. cbn [app]. now rewrite app_nil_r.
Qed.

Lemma display_entries_after_fill (this : NgbPagination) (q : Z) :
  Forall (display_entry q) (pages (after_fill (filled this q))).
Proof.
  destruct (gt (maxSize this) (Fin 0) && gt (Fin q) (maxSize this)) eqn:Hw.
  - pose proof Hw as Hw'. apply windowing_engaged in Hw' as (m & Hm & Hmq).
    destruct (getValueInRange_cases (page this) q ltac:(lia)) as [(c & Hc & Hcq)|Hnan].
    + destruct (display_shape this q c ltac:(lia) Hc)
        as (s & n & Hs0 & Hs1 & Hs2 & Hs3 & ->).
      rewrite !Forall_app. repeat split.
      * destruct (ellipses this && (0 <? s)); [|apply Forall_nil].
        apply Forall_cons; [apply display_entry_page; lia|].
        apply Forall_cons; [apply display_entry_ellipsis | apply Forall_nil].
      * apply numbers_from_Forall. intros v Hv. apply display_entry_page. lia.
      * destruct (ellipses this && (s + n <? q)); [|apply Forall_nil].
        apply Forall_cons; [apply display_entry_ellipsis|].
        apply Forall_cons; [apply display_entry_page; lia | apply Forall_nil].
    + rewrite (display_windowed_NaN this q m Hm Hmq Hnan). constructor.
  - rewrite (display_full this q Hw).
    apply numbers_from_Forall. intros v Hv. apply display_entry_page. lia.
Qed.

Lemma numbers_from_snoc (i : Z) (n : nat) :
  numbers_from i (S n) = numbers_from i n ++ [Fin (i + Z.of_nat n)].
Proof.
  unfold numbers_from. rewrite seq_S, map_app. reflexivity.
Qed.

Lemma numbers_from_In (i : Z) (n : nat) (e : number) :
  In e (numbers_from i n) <-> exists v : Z, e = Fin v /\ i <= v < i + Z.of_nat n.
Proof.
  unfold numbers_from. rewrite in_map_iff. split.
  - intros (k & <- & Hk). apply in_seq in Hk. eexists. split; [reflexivity | lia].
  - intros (v & -> & Hv). exists (Z.to_nat (v - i)). split.
    + f_equal. lia.
    + apply in_seq. lia.
Qed.

(** *** Properties of the recompute *)

(** X1: a recompute with [collectionSize >= 0] and [pageSize > 0] changes
    the page count, the page and the Display Sequence only: the inputs are
    kept, the new page is the old one clamped against the new page count,
    and nothing is emitted, also when the page has changed. *)
Theorem ngOnChanges_silent (fuel : nat) (this : NgbPagination) (cs ps : Z) :
  collectionSize this = Fin cs -> pageSize this = Fin ps ->
  0 <= cs -> 0 < ps -> (Z.to_nat cs <= fuel)%nat ->
  exists this' : NgbPagination,
    ngOnChanges fuel this = Some this'
    /\ pageChange this' = pageChange this
    /\ page this' = getValueInRange (page this) (_pageCount this') (Fin 1)
    /\ ellipses this' = ellipses this /\ rotate this' = rotate this
    /\ collectionSize this' = collectionSize this
    /\ maxSize this' = maxSize this /\ pageSize this' = pageSize this.
Proof.
  intros Hcs Hps Hcs0 Hps0 Hfuel.
  eexists. split; [now apply (ngOnChanges_returns fuel this cs ps)|].
  rewrite after_fill_frame. repeat split.
Qed.

Lemma ngOnChanges_silent_witness :
  exists this' : NgbPagination,
    ngOnChanges 20
      (mkNgbPagination (Fin 10) (numbers_from 1 10) true false (Fin 20) (Fin 0)
         (Fin 7) (Fin 10) [])
    = Some this'
    /\ pageChange this' = []
    /\ page this' = getValueInRange (Fin 7) (_pageCount this') (Fin 1)
    /\ ellipses this' = true /\ rotate this' = false
    /\ collectionSize this' = Fin 20
    /\ maxSize this' = Fin 0 /\ pageSize this' = Fin 10.
Proof.
  apply (ngOnChanges_silent 20
           (mkNgbPagination (Fin 10) (numbers_from 1 10) true false (Fin 20) (Fin 0)
              (Fin 7) (Fin 10) [])
           20 10); [reflexivity | reflexivity | lia | lia | lia].
Defined.

(** X2: with a positive page size and a collection size that is zero or
    negative, the recompute returns whatever the fuel, the page and
    [maxSize] are, with a page count that is not positive, an empty Display
    Sequence, page 1 and both directions closed. *)
Theorem empty_collection_display (fuel : nat) (this : NgbPagination) (cs ps : Z) :
  collectionSize this = Fin cs -> pageSize this = Fin ps ->
  cs <= 0 -> 0 < ps ->
  exists (this' : NgbPagination) (pc : Z),
    ngOnChanges fuel this = Some this'
    /\ _pageCount this' = Fin pc /\ pc <= 0 /\ (cs = 0 -> pc = 0)
    /\ pages this' = []
    /\ page this' = Fin 1
    /\ hasPrevious this' = false /\ hasNext this' = false.
Proof.
  intros Hcs Hps Hcs0 Hps0.
  pose proof (pageCount_Fin this cs ps Hcs Hps Hps0) as Hq.
  pose proof (ceiling_bounds cs ps Hps0) as Hb.
  set (q := - (- cs / ps)) in *.
  assert (Hq0 : q <= 0) by nia.
  assert (Hpage : page (after_fill (filled this q)) = Fin 1).
  { rewrite page_after_fill. unfold getValueInRange, le.
    destruct (Z.leb_spec q 0); [reflexivity | lia]. }
  assert (Hw : gt (maxSize this) (Fin 0) && gt (Fin q) (maxSize this) = false).
  { destruct (gt (maxSize this) (Fin 0) && gt (Fin q) (maxSize this)) eqn:E;
      [|reflexivity].
    apply windowing_engaged in E as (m & _ & Hm). lia. }
  exists (after_fill (filled this q)), q.
  split; [apply ngOnChanges_Fin; [assumption | lia]|].
  split; [rewrite after_fill_frame; reflexivity|].
  split; [exact Hq0|]. split; [intros ->; nia|].
  split.
  { rewrite (display_full this q Hw).
    replace (Z.to_nat q) with 0%nat by lia. reflexivity. }
  split; [exact Hpage|].
  unfold hasPrevious, hasNext. rewrite Hpage.
  rewrite after_fill_frame. cbn [_pageCount set_pages set_page filled set_pageCount].
  unfold gt, lt. split; [reflexivity|].
  destruct (Z.ltb_spec 1 q); [lia | reflexivity].
Qed.

Lemma empty_collection_display_witness :
  exists (this' : NgbPagination) (pc : Z),
    ngOnChanges 0 (init (Fin 0) (Fin 10) (Fin 5) (Fin 7) true true) = Some this'
    /\ _pageCount this' = Fin pc /\ pc <= 0 /\ (0 = 0 -> pc = 0)
    /\ pages this' = []
    /\ page this' = Fin 1
    /\ hasPrevious this' = false /\ hasNext this' = false.
Proof.
  apply (empty_collection_display 0
           (init (Fin 0) (Fin 10) (Fin 5) (Fin 7) true true) 0 10);
    [reflexivity | reflexivity | lia | lia].
Defined.

(** X3: when [maxSize] is zero or negative, or not smaller than the page
    count, the Display Sequence is every page from 1 to the page count, in
    order, without ellipses, whatever [rotate] and [ellipses] are. *)
Theorem unwindowed_display (fuel : nat) (this : NgbPagination) (cs ps m : Z) :
  collectionSize this = Fin cs -> pageSize this = Fin ps -> maxSize this = Fin m ->
  0 <= cs -> 0 < ps -> (Z.to_nat cs <= fuel)%nat ->
  exists (this' : NgbPagination) (pc : Z),
    ngOnChanges fuel this = Some this'
    /\ _pageCount this' = Fin pc
    /\ (m <= 0 \/ pc <= m ->
        pages this' = map Fin (map Z.of_nat (seq 1 (Z.to_nat pc)))).
Proof.
  intros Hcs Hps Hm Hcs0 Hps0 Hfuel.
  eexists. exists (- ((- cs) / ps)).
  split; [now apply (ngOnChanges_returns fuel this cs ps)|].
  split; [rewrite after_fill_frame; reflexivity|].
  intros Hcase. rewrite display_full.
  - unfold numbers_from. rewrite <- seq_shift, !map_map.
    apply map_ext. intros k. f_equal. lia.
  - rewrite Hm. unfold gt, lt.
    destruct (Z.ltb_spec 0 m); [|reflexivity].
    destruct (Z.ltb_spec m (- (- cs / ps))); [lia | reflexivity].
Qed.

Lemma unwindowed_display_witness :
  exists (this' : NgbPagination) (pc : Z),
    ngOnChanges 25 (init (Fin 25) (Fin 10) (Fin 3) (Fin 2) true true) = Some this'
    /\ _pageCount this' = Fin pc
    /\ (3 <= 0 \/ pc <= 3 ->
        pages this' = map Fin (map Z.of_nat (seq 1 (Z.to_nat pc)))).
Proof.
  apply (unwindowed_display 25
           (init (Fin 25) (Fin 10) (Fin 3) (Fin 2) true true) 25 10 3);
    [reflexivity | reflexivity | reflexivity | lia | lia | lia].
Defined.

(** *** What the Display Sequence shows *)

Lemma active_in_numbers_from (c : Z) (n : nat) :
  forall i : Z,
    length (filter (fun e => strict_eq e (Fin c)) (numbers_from i n))
    = if (i <=? c) && (c <? i + Z.of_nat n) then 1%nat else 0%nat.
Proof.
  induction n as [|n IH]; intros i.
  - cbn. destruct (Z.leb_spec i c), (Z.ltb_spec c (i + 0)); cbn; lia || reflexivity.
  - rewrite numbers_from_S. cbn [filter strict_eq].
    destruct (Z.eqb_spec i c) as [->|Hne]; cbn [length]; rewrite IH.
    + destruct (Z.leb_spec (c + 1) c); [lia|]. cbn [andb].
      destruct (Z.leb_spec c c); [|lia].
      destruct (Z.ltb_spec c (c + Z.of_nat (S n))); [reflexivity | lia].
    + destruct (Z.leb_spec (i + 1) c), (Z.leb_spec i c),
        (Z.ltb_spec c (i + 1 + Z.of_nat n)), (Z.ltb_spec c (i + Z.of_nat (S n)));
        cbn [andb]; try reflexivity; lia.
Qed.

(** X4: after a recompute over at least one item, with a page that is a
    number, exactly one entry of the Display Sequence is the active one,
    whichever strategy selects the window: the current page is always
    shown, and shown once. *)
Theorem current_page_shown_once (fuel : nat) (this : NgbPagination) (cs ps p : Z) :
  collectionSize this = Fin cs -> pageSize this = Fin ps -> page this = Fin p ->
  0 < cs -> 0 < ps -> (Z.to_nat cs <= fuel)%nat ->
  exists this' : NgbPagination,
    ngOnChanges fuel this = Some this'
    /\ length (filter (isActive this') (pages this')) = 1%nat.
Proof.
  intros Hcs Hps Hp Hcs0 Hps0 Hfuel.
  pose proof (ceiling_bounds cs ps Hps0) as Hb.
  set (q := - (- cs / ps)) in *.
  assert (Hq : 1 <= q) by nia.
  set (c := Z.max 1 (Z.min p q)).
  assert (Hc : getValueInRange (page this) (Fin q) (Fin 1) = Fin c)
    by (rewrite Hp; apply getValueInRange_Fin).
  exists (after_fill (filled this q)).
  split; [now apply (ngOnChanges_returns fuel this cs ps); try lia|].
  rewrite (filter_ext (isActive (after_fill (filled this q)))
             (fun e => strict_eq e (Fin c)))
    by (intros e; unfold isActive; now rewrite page_after_fill, Hc).
  destruct (display_shape this q c Hq Hc) as (s & n & Hs0 & Hs1 & Hs2 & Hs3 & ->).
  rewrite !filter_app, !length_app, active_in_numbers_from.
  replace ((1 + s <=? c) && (c <? 1 + s + Z.of_nat (Z.to_nat n))) with true
    by (symmetry; apply andb_true_iff; split;
        [apply Z.leb_le | apply Z.ltb_lt]; lia).
  assert (Hlead : filter (fun e => strict_eq e (Fin c))
                    (if ellipses this && (0 <? s) then [Fin 1; Fin (-1)] else [])
                  = []).
  { destruct (ellipses this); cbn [andb]; [|reflexivity].
    destruct (Z.ltb_spec 0 s); [|reflexivity]. cbn [filter strict_eq].
    destruct (Z.eqb_spec 1 c); [lia|]. destruct (Z.eqb_spec (-1) c); [lia|].
    reflexivity. }
  assert (Htrail : filter (fun e => strict_eq e (Fin c))
                     (if ellipses this && (s + n <? q) then [Fin (-1); Fin q] else [])
                   = []).
  { destruct (ellipses this); cbn [andb]; [|reflexivity].
    destruct (Z.ltb_spec (s + n) q); [|reflexivity]. cbn [filter strict_eq].
    destruct (Z.eqb_spec (-1) c); [lia|]. destruct (Z.eqb_spec q c); [lia|].
    reflexivity. }
  rewrite Hlead, Htrail. reflexivity.
Qed.

Lemma current_page_shown_once_witness :
  exists this' : NgbPagination,
    ngOnChanges 200 (init (Fin 200) (Fin 10) (Fin 5) (Fin 42) false true) = Some this'
    /\ length (filter (isActive this') (pages this')) = 1%nat.
Proof.
  apply (current_page_shown_once 200
           (init (Fin 200) (Fin 10) (Fin 5) (Fin 42) false true) 200 10 42);
    [reflexivity | reflexivity | reflexivity | lia | lia | lia].
Defined.

(** Whatever the page is, the Display Sequence is a run of consecutive
    pages, possibly empty, with or without each boundary group. *)
Lemma display_shape_loose (this : NgbPagination) (q : Z) :
  exists (s : Z) (n : nat) (lead trail : bool),
    0 <= s /\ s + Z.of_nat n <= Z.max q 0
    /\ (lead = true -> 1 <= s) /\ (trail = true -> s + Z.of_nat n < q)
    /\ pages (after_fill (filled this q))
       = (if lead then [Fin 1; Fin (-1)] else [])
         ++ numbers_from (1 + s) n
         ++ (if trail then [Fin (-1); Fin q] else []).
Proof.
  destruct (gt (maxSize this) (Fin 0) && gt (Fin q) (maxSize this)) eqn:Hw.
  - apply windowing_engaged in Hw as (m & Hm & Hmq).
    destruct (getValueInRange_cases (page this) q ltac:(lia)) as [(c & Hc & Hcq)|Hnan].
    + destruct (display_shape this q c ltac:(lia) Hc)
        as (s & n & Hs0 & Hs1 & Hs2 & Hs3 & ->).
      exists s, (Z.to_nat n), (ellipses this && (0 <? s)),
        (ellipses this && (s + n <? q)).
      split; [lia|]. split; [lia|]. split; [|split; [|reflexivity]].
      * intros H. apply andb_true_iff in H as [_ H]. apply Z.ltb_lt in H. lia.
      * intros H. apply andb_true_iff in H as [_ H]. apply Z.ltb_lt in H. lia.
    + rewrite (display_windowed_NaN this q m Hm Hmq Hnan).
      exists 0, 0%nat, false, false.
      split; [lia|]. split; [lia|]. split; [discriminate|].
      split; [discriminate | reflexivity].
  - rewrite (display_full this q Hw).
    exists 0, (Z.to_nat q), false, false.
    split; [lia|]. split; [lia|]. split; [discriminate|].
    split; [discriminate|]. cbn [app]. now rewrite app_nil_r.
Qed.

Lemma StronglySorted_app (l1 l2 : list Z) :
  StronglySorted Z.lt l1 -> StronglySorted Z.lt l2 ->
  (forall x y, In x l1 -> In y l2 -> x < y) ->
  StronglySorted Z.lt (l1 ++ l2).
Proof.
  induction l1 as [|a l1 IH]; intros H1 H2 H12; [exact H2|].
  apply StronglySorted_inv in H1 as [H1 Ha].
  cbn [app]. apply SSorted_cons.
  - apply IH; [assumption | assumption|].
    intros x y Hx Hy. apply H12; [now right | assumption].
  - apply Forall_app. split; [assumption|].
    apply Forall_forall. intros y Hy. apply H12; [now left | assumption].
Qed.

Lemma StronglySorted_range (n : nat) :
  forall i : Z, StronglySorted Z.lt (map (fun k => i + Z.of_nat k) (seq 0 n)).
Proof.
  induction n as [|n IH]; intros i; [constructor|].
  cbn [seq map]. apply SSorted_cons.
  - rewrite <- seq_shift, map_map.
    rewrite (map_ext _ (fun k => (i + 1) + Z.of_nat k)); [apply IH|].
    intros k. lia.
  - apply Forall_forall. intros y Hy. apply in_map_iff in Hy as (k & <- & Hk).
    apply in_seq in Hk. lia.
Qed.

Lemma real_pages_numbers_from (i : Z) (n : nat) :
  0 <= i ->
  real_pages (numbers_from i n) = map Fin (map (fun k => i + Z.of_nat k) (seq 0 n)).
Proof.
  intros Hi. unfold real_pages. rewrite forallb_filter_id.
  - unfold numbers_from. now rewrite map_map.
  - apply forallb_forall. intros e He.
    apply numbers_from_In in He as (v & -> & Hv).
    unfold _isEllipsis, strict_eq. destruct (Z.eqb_spec v (-1)); [lia | reflexivity].
Qed.

(** X5: after a recompute with [collectionSize >= 0] and [pageSize > 0],
    the real pages of the Display Sequence, read from left to right, are
    integers of [[1, pageCount]] in strictly increasing order: no page is
    shown twice, with or without ellipses, for either strategy and whatever
    the page is. *)
Theorem real_pages_increasing (fuel : nat) (this : NgbPagination) (cs ps : Z) :
  collectionSize this = Fin cs -> pageSize this = Fin ps ->
  0 <= cs -> 0 < ps -> (Z.to_nat cs <= fuel)%nat ->
  exists (this' : NgbPagination) (pc : Z) (l : list Z),
    ngOnChanges fuel this = Some this'
    /\ _pageCount this' = Fin pc
    /\ real_pages (pages this') = map Fin l
    /\ StronglySorted Z.lt l
    /\ Forall (fun v => 1 <= v <= pc) l.
Proof.
  intros Hcs Hps Hcs0 Hps0 Hfuel.
  set (q := - (- cs / ps)).
  destruct (display_shape_loose this q)
    as (s & n & lead & trail & Hs0 & Hs1 & Hlead & Htrail & Hpages).
  exists (after_fill (filled this q)), q,
    ((if lead then [1] else [])
     ++ map (fun k => 1 + s + Z.of_nat k) (seq 0 n)
     ++ (if trail then [q] else [])).
  split; [now apply (ngOnChanges_returns fuel this cs ps)|].
  split; [rewrite after_fill_frame; reflexivity|].
  assert (Hin : forall y, In y (map (fun k => 1 + s + Z.of_nat k) (seq 0 n)) ->
                          1 + s <= y <= s + Z.of_nat n).
  { intros y Hy. apply in_map_iff in Hy as (k & <- & Hk). apply in_seq in Hk. lia. }
  split; [|split].
  - rewrite Hpages. unfold real_pages. rewrite !filter_app.
    fold (real_pages (numbers_from (1 + s) n)).
    rewrite real_pages_numbers_from by lia. rewrite !map_app. f_equal; [|f_equal].
    + now destruct lead.
    + destruct trail; [|reflexivity].
      unfold _isEllipsis. cbn [filter strict_eq map].
      change (-1 =? -1) with true. cbn [negb].
      destruct (Z.eqb_spec q (-1)); [specialize (Htrail eq_refl); lia | reflexivity].
  - apply StronglySorted_app; [|apply StronglySorted_app|].
    + destruct lead; repeat constructor.
    + apply StronglySorted_range.
    + destruct trail; repeat constructor.
    + intros x y Hx Hy. apply Hin in Hx. destruct trail; [|contradiction].
      destruct Hy as [<-|[]]. specialize (Htrail eq_refl). lia.
    + intros x y Hx Hy. destruct lead; [|contradiction].
      destruct Hx as [<-|[]]. specialize (Hlead eq_refl).
      apply in_app_or in Hy as [Hy|Hy].
      * apply Hin in Hy. lia.
      * destruct trail; [|contradiction]. destruct Hy as [<-|[]].
        specialize (Htrail eq_refl). lia.
  - rewrite !Forall_app. repeat split.
    + destruct lead; [|constructor]. specialize (Hlead eq_refl).
      constructor; [lia | constructor].
    + apply Forall_forall. intros y Hy. apply Hin in Hy. lia.
    + destruct trail; [|constructor]. specialize (Htrail eq_refl).
      constructor; [lia | constructor].
Qed.

Lemma real_pages_increasing_witness :
  exists (this' : NgbPagination) (pc : Z) (l : list Z),
    ngOnChanges 200 (init (Fin 200) (Fin 10) (Fin 5) (Fin 10) true true) = Some this'
    /\ _pageCount this' = Fin pc
    /\ real_pages (pages this') = map Fin l
    /\ StronglySorted Z.lt l
    /\ Forall (fun v => 1 <= v <= pc) l.
Proof.
  apply (real_pages_increasing 200
           (init (Fin 200) (Fin 10) (Fin 5) (Fin 10) true true) 200 10);
    [reflexivity | reflexivity | lia | lia | lia].
Defined.

(** X6: with ellipses on, at least one item and a page that is a number,
    the Display Sequence begins with page 1 and ends with the last page,
    windowed or not. *)
Theorem boundary_pages_shown (fuel : nat) (this : NgbPagination) (cs ps p : Z) :
  collectionSize this = Fin cs -> pageSize this = Fin ps -> page this = Fin p ->
  ellipses this = true ->
  0 < cs -> 0 < ps -> (Z.to_nat cs <= fuel)%nat ->
  exists (this' : NgbPagination) (pc : Z),
    ngOnChanges fuel this = Some this'
    /\ _pageCount this' = Fin pc
    /\ hd_error (pages this') = Some (Fin 1)
    /\ last (pages this') NaN = Fin pc.
Proof.
  intros Hcs Hps Hp Hel Hcs0 Hps0 Hfuel.
  pose proof (ceiling_bounds cs ps Hps0) as Hb.
  set (q := - (- cs / ps)) in *.
  assert (Hq : 1 <= q) by nia.
  set (c := Z.max 1 (Z.min p q)).
  assert (Hc : getValueInRange (page this) (Fin q) (Fin 1) = Fin c)
    by (rewrite Hp; apply getValueInRange_Fin).
  exists (after_fill (filled this q)), q.
  split; [now apply (ngOnChanges_returns fuel this cs ps); try lia|].
  split; [rewrite after_fill_frame; reflexivity|].
  destruct (display_shape this q c Hq Hc) as (s & n & Hs0 & Hs1 & Hs2 & Hs3 & ->).
  rewrite Hel. cbn [andb].
  destruct (Z.to_nat n) as [|k] eqn:Hk; [lia|].
  split.
  - destruct (Z.ltb_spec 0 s); [reflexivity|].
    rewrite numbers_from_S. cbn [app hd_error]. do 2 f_equal. lia.
  - destruct (Z.ltb_spec (s + n) q).
    + change [Fin (-1); Fin q] with ([Fin (-1)] ++ [Fin q]).
      rewrite !app_assoc. apply last_last.
    + rewrite numbers_from_snoc, app_nil_r, app_assoc, last_last.
      f_equal. lia.
Qed.

Lemma boundary_pages_shown_witness :
  exists (this' : NgbPagination) (pc : Z),
    ngOnChanges 200 (init (Fin 200) (Fin 10) (Fin 5) (Fin 10) true true) = Some this'
    /\ _pageCount this' = Fin pc
    /\ hd_error (pages this') = Some (Fin 1)
    /\ last (pages this') NaN = Fin pc.
Proof.
  apply (boundary_pages_shown 200
           (init (Fin 200) (Fin 10) (Fin 5) (Fin 10) true true) 200 10 10);
    [reflexivity | reflexivity | reflexivity | reflexivity | lia | lia | lia].
Defined.

(** *** The two strategies in closed form *)

Lemma applyRotation_closed (this : NgbPagination) (pc m p : Z) :
  _pageCount this = Fin pc -> maxSize this = Fin m -> page this = Fin p ->
  0 < m < pc -> 1 <= p <= pc ->
  _applyRotation this
  = (Fin (Z.max 0 (Z.min (p - m / 2 - 1) (pc - m))),
     Fin (Z.max 0 (Z.min (p - m / 2 - 1) (pc - m)) + m)).
Proof.
  intros Hpc Hm Hp Hmq Hpq.
  rewrite (applyRotation_Fin this pc m p) by assumption.
  cbv zeta.
  assert (Heven : if Z.even m then m = m / 2 * 2 else m = m / 2 * 2 + 1).
  { pose proof (Z.div_mod m 2 ltac:(lia)) as E. rewrite Zmod_even in E.
    destruct (Z.even m); lia. }
  set (h := m / 2) in *.
  assert (Hh : h * 2 <= m <= h * 2 + 1) by (destruct (Z.even m); lia).
  destruct (Z.leb_spec p h).
  - apply f_equal2; apply f_equal; lia.
  - destruct (Z.ltb_spec (pc - p) h).
    + apply f_equal2; apply f_equal; lia.
    + revert Heven. destruct (Z.even m); intros;
        apply f_equal2; apply f_equal; lia.
Qed.

(** X7: the three cases of the rotation are one formula: the window
    starts at [page - floor(maxSize / 2) - 1] clamped into [[0, pageCount -
    maxSize]].  It always has exactly [maxSize] pages, lies inside the page
    list and holds the current page. *)
Theorem rotation_window_clamped_centre
    (this : NgbPagination) (pageCount maxVisible current : Z) :
  _pageCount this = Fin pageCount -> maxSize this = Fin maxVisible ->
  page this = Fin current ->
  0 < maxVisible < pageCount -> 1 <= current <= pageCount ->
  let start :=
    Z.max 0 (Z.min (current - maxVisible / 2 - 1) (pageCount - maxVisible)) in
  _applyRotation this = (Fin start, Fin (start + maxVisible))
  /\ 0 <= start /\ start + maxVisible <= pageCount
  /\ start < current <= start + maxVisible.
Proof.
  intros Hpc Hm Hp Hmq Hpq. cbv zeta.
  split; [now apply applyRotation_closed|].
  pose proof (Z.div_mod maxVisible 2 ltac:(lia)) as E.
  pose proof (Z.mod_pos_bound maxVisible 2 ltac:(lia)) as B.
  set (h := maxVisible / 2) in *. lia.
Qed.

Lemma rotation_window_clamped_centre_witness :
  _applyRotation
    (mkNgbPagination (Fin 20) (numbers_from 1 20) true true (Fin 200) (Fin 4)
       (Fin 19) (Fin 10) [])
  = (Fin 16, Fin 20).
Proof.
  apply (rotation_window_clamped_centre
           (mkNgbPagination (Fin 20) (numbers_from 1 20) true true (Fin 200) (Fin 4)
              (Fin 19) (Fin 10) [])
           20 4 19); [reflexivity | reflexivity | reflexivity | lia | lia].
Defined.

Lemma block_of_page (p m : Z) : 0 < m -> - ((- p) / m) - 1 = (p - 1) / m.
Proof.
  intros Hm. pose proof (ceiling_bounds p m Hm) as Hb.
  set (c := - (- p / m)) in *.
  apply (Z.div_unique_pos (p - 1) m (c - 1) (p - 1 - m * (c - 1))); nia.
Qed.

(** X8: the pagination-blocks window starts at the multiple [floor((page -
    1) / maxSize) * maxSize] and is [maxSize] wide; two pages get the same
    window exactly when they lie in the same block, so the window does not
    follow the page inside a block. *)
Theorem pagination_window_of_block (this other : NgbPagination) (m p p' : Z) :
  maxSize this = Fin m -> maxSize other = Fin m ->
  page this = Fin p -> page other = Fin p' -> 0 < m ->
  _applyPagination this = (Fin ((p - 1) / m * m), Fin ((p - 1) / m * m + m))
  /\ ((p - 1) / m = (p' - 1) / m
      <-> _applyPagination this = _applyPagination other).
Proof.
  intros Hm Hm' Hp Hp' Hm0.
  assert (H1 : _applyPagination this
               = (Fin ((p - 1) / m * m), Fin ((p - 1) / m * m + m))).
  { rewrite (applyPagination_Fin this m p) by (assumption || lia).
    cbv zeta. now rewrite block_of_page. }
  assert (H2 : _applyPagination other
               = (Fin ((p' - 1) / m * m), Fin ((p' - 1) / m * m + m))).
  { rewrite (applyPagination_Fin other m p') by (assumption || lia).
    cbv zeta. now rewrite block_of_page. }
  split; [exact H1|]. rewrite H1, H2. split.
  - intros ->. reflexivity.
  - intros [= E _]. nia.
Qed.

Lemma pagination_window_of_block_witness :
  _applyPagination
    (mkNgbPagination (Fin 10) (numbers_from 1 10) true false (Fin 100) (Fin 3)
       (Fin 4) (Fin 10) [])
  = (Fin ((4 - 1) / 3 * 3), Fin ((4 - 1) / 3 * 3 + 3))
  /\ ((4 - 1) / 3 = (6 - 1) / 3
      <-> _applyPagination
            (mkNgbPagination (Fin 10) (numbers_from 1 10) true false (Fin 100) (Fin 3)
               (Fin 4) (Fin 10) [])
          = _applyPagination
              (mkNgbPagination (Fin 10) (numbers_from 1 10) true false (Fin 100)
                 (Fin 3) (Fin 6) (Fin 10) [])).
Proof.
  apply (pagination_window_of_block
           (mkNgbPagination (Fin 10) (numbers_from 1 10) true false (Fin 100) (Fin 3)
              (Fin 4) (Fin 10) [])
           (mkNgbPagination (Fin 10) (numbers_from 1 10) true false (Fin 100) (Fin 3)
              (Fin 6) (Fin 10) [])
           3 4 6); [reflexivity | reflexivity | reflexivity | reflexivity | lia].
Defined.

(** *** Navigation from a recomputed state *)

Lemma after_fill_filled_fields (t : NgbPagination) (q : Z) :
  after_fill (filled t q)
  = mkNgbPagination (Fin q) (pages (after_fill (filled t q))) (ellipses t)
      (rotate t) (collectionSize t) (maxSize t)
      (getValueInRange (page t) (Fin q) (Fin 1)) (pageSize t) (pageChange t).
Proof. rewrite after_fill_frame. now destruct t. Qed.

(** Selecting page [t] in a state that a recompute returns unchanged: the
    state stays as it is when [t] clamps to the current page, and otherwise
    becomes the recomputed state of the clamped page, with that page
    emitted. *)
Lemma navigate (fuel : nat) (this : NgbPagination) (cs ps p t : Z) :
  collectionSize this = Fin cs -> pageSize this = Fin ps ->
  0 <= cs -> 0 < ps -> (Z.to_nat cs <= fuel)%nat ->
  page this = Fin p -> ngOnChanges fuel this = Some this ->
  let q := - ((- cs) / ps) in
  let r := Z.max 1 (Z.min t q) in
  let moved := after_fill (filled (set_page this (Fin r)) q) in
  selectPage fuel this (Fin t)
  = Some (if r =? p then this else emit moved (Fin r))
  /\ page moved = Fin r
  /\ pageChange moved = pageChange this
  /\ _pageCount moved = Fin q
  /\ _pageCount this = Fin q
  /\ p = Z.max 1 (Z.min p q).
Proof.
  intros Hcs Hps Hcs0 Hps0 Hfuel Hp Hfix. cbv zeta.
  destruct (recomputed_state fuel this cs ps Hcs Hps Hcs0 Hps0 Hfuel Hfix)
    as (Hthis & Hpc & Hclamp).
  set (q := - (- cs / ps)) in *. set (r := Z.max 1 (Z.min t q)).
  assert (Hr : _getPageNoInRange this (Fin t) = Fin r).
  { unfold _getPageNoInRange. rewrite Hpc. apply getValueInRange_Fin. }
  rewrite Hp, getValueInRange_Fin in Hclamp. injection Hclamp as Hclamp.
  split; [|split; [|split; [|split; [|split]]]].
  - rewrite (selectPage_result fuel this cs ps r) by assumption.
    fold q. rewrite Hp. cbn [strict_eq].
    destruct (r =? p); [now rewrite <- Hthis | reflexivity].
  - rewrite page_after_fill. cbn [page set_page].
    rewrite getValueInRange_Fin. f_equal. unfold r. lia.
  - now rewrite after_fill_filled_fields.
  - now rewrite after_fill_filled_fields.
  - exact Hpc.
  - exact Hclamp.
Qed.

(** X9: in a recomputed state, the "Previous" and "First" links of a
    component without a previous page, and the "Next" and "Last" links of
    one without a next page, leave the state as it is when clicked: no page
    change, no event, the same Display Sequence. *)
Theorem closed_links_do_nothing (fuel : nat) (this : NgbPagination) (cs ps p : Z) :
  collectionSize this = Fin cs -> pageSize this = Fin ps ->
  0 <= cs -> 0 < ps -> (Z.to_nat cs <= fuel)%nat ->
  page this = Fin p -> ngOnChanges fuel this = Some this ->
  (hasPrevious this = false ->
   clickPrevious fuel this = Some this /\ clickFirst fuel this = Some this)
  /\ (hasNext this = false ->
      clickNext fuel this = Some this /\ clickLast fuel this = Some this).
Proof.
  intros Hcs Hps Hcs0 Hps0 Hfuel Hp Hfix.
  assert (Hnav : forall t, Z.max 1 (Z.min t (- ((- cs) / ps))) = p ->
                           selectPage fuel this (Fin t) = Some this).
  { intros t Ht.
    destruct (navigate fuel this cs ps p t Hcs Hps Hcs0 Hps0 Hfuel Hp Hfix)
      as (Hsel & _).
    rewrite Hsel, Ht, Z.eqb_refl. reflexivity. }
  destruct (navigate fuel this cs ps p 0 Hcs Hps Hcs0 Hps0 Hfuel Hp Hfix)
    as (_ & _ & _ & _ & Hpc & Hclamp).
  unfold hasPrevious, hasNext, clickPrevious, clickFirst, clickNext, clickLast.
  rewrite Hp, Hpc. unfold gt, lt, sub, add, neg.
  split.
  - intros H. apply Z.ltb_ge in H. split; apply Hnav; lia.
  - intros H. apply Z.ltb_ge in H. split; apply Hnav; lia.
Qed.

Lemma closed_links_do_nothing_witness :
  (hasPrevious
     (mkNgbPagination (Fin 1) [Fin 1] true false (Fin 7) (Fin 0) (Fin 1) (Fin 10) [])
   = false ->
   clickPrevious 7
     (mkNgbPagination (Fin 1) [Fin 1] true false (Fin 7) (Fin 0) (Fin 1) (Fin 10) [])
   = Some
       (mkNgbPagination (Fin 1) [Fin 1] true false (Fin 7) (Fin 0) (Fin 1) (Fin 10) [])
   /\ clickFirst 7
        (mkNgbPagination (Fin 1) [Fin 1] true false (Fin 7) (Fin 0) (Fin 1) (Fin 10) [])
      = Some
          (mkNgbPagination (Fin 1) [Fin 1] true false (Fin 7) (Fin 0) (Fin 1) (Fin 10) []))
  /\ (hasNext
        (mkNgbPagination (Fin 1) [Fin 1] true false (Fin 7) (Fin 0) (Fin 1) (Fin 10) [])
      = false ->
      clickNext 7
        (mkNgbPagination (Fin 1) [Fin 1] true false (Fin 7) (Fin 0) (Fin 1) (Fin 10) [])
      = Some
          (mkNgbPagination (Fin 1) [Fin 1] true false (Fin 7) (Fin 0) (Fin 1) (Fin 10) [])
      /\ clickLast 7
           (mkNgbPagination (Fin 1) [Fin 1] true false (Fin 7) (Fin 0) (Fin 1) (Fin 10) [])
         = Some
             (mkNgbPagination (Fin 1) [Fin 1] true false (Fin 7) (Fin 0) (Fin 1)
                (Fin 10) [])).
Proof.
  apply (closed_links_do_nothing 7
           (mkNgbPagination (Fin 1) [Fin 1] true false (Fin 7) (Fin 0) (Fin 1) (Fin 10) [])
           7 10 1); [reflexivity | reflexivity | lia | lia | lia | reflexivity | reflexivity].
Defined.

(** X10: in a recomputed state, an open "Next" link moves to the following
    page and an open "Previous" link to the preceding one; each emits the
    new page, once, and leaves the opposite direction open. *)
Theorem open_links_move_one_page (fuel : nat) (this : NgbPagination) (cs ps p : Z) :
  collectionSize this = Fin cs -> pageSize this = Fin ps ->
  0 <= cs -> 0 < ps -> (Z.to_nat cs <= fuel)%nat ->
  page this = Fin p -> ngOnChanges fuel this = Some this ->
  (hasNext this = true ->
   exists this' : NgbPagination,
     clickNext fuel this = Some this'
     /\ page this' = Fin (p + 1)
     /\ pageChange this' = pageChange this ++ [Fin (p + 1)]
     /\ hasPrevious this' = true)
  /\ (hasPrevious this = true ->
      exists this' : NgbPagination,
        clickPrevious fuel this = Some this'
        /\ page this' = Fin (p - 1)
        /\ pageChange this' = pageChange this ++ [Fin (p - 1)]
        /\ hasNext this' = true).
Proof.
  intros Hcs Hps Hcs0 Hps0 Hfuel Hp Hfix.
  set (q := - ((- cs) / ps)).
  assert (Hnav : forall t, 1 <= t <= q -> t <> p ->
             exists this' : NgbPagination,
               selectPage fuel this (Fin t) = Some this'
               /\ page this' = Fin t
               /\ pageChange this' = pageChange this ++ [Fin t]
               /\ _pageCount this' = Fin q).
  { intros t Ht Hne.
    destruct (navigate fuel this cs ps p t Hcs Hps Hcs0 Hps0 Hfuel Hp Hfix)
      as (Hsel & Hpg & Hev & Hcount & _).
    fold q in Hsel, Hpg, Hev, Hcount.
    replace (Z.max 1 (Z.min t q)) with t in * by lia.
    destruct (Z.eqb_spec t p); [contradiction|].
    eexists. split; [exact Hsel|].
    cbn [emit page pageChange _pageCount]. rewrite Hev. auto. }
  destruct (navigate fuel this cs ps p 0 Hcs Hps Hcs0 Hps0 Hfuel Hp Hfix)
    as (_ & _ & _ & _ & Hpc & Hclamp).
  fold q in Hpc, Hclamp.
  unfold hasPrevious, hasNext, clickPrevious, clickNext.
  rewrite Hp, Hpc. unfold gt, lt, sub, add, neg.
  split.
  - intros H. apply Z.ltb_lt in H.
    destruct (Hnav (p + 1) ltac:(lia) ltac:(lia)) as (t' & Hsel & Hpg & Hev & Hcount).
    exists t'. rewrite Hpg. repeat split; try assumption.
    apply Z.ltb_lt. lia.
  - intros H. apply Z.ltb_lt in H.
    destruct (Hnav (p - 1) ltac:(lia) ltac:(lia)) as (t' & Hsel & Hpg & Hev & Hcount).
    exists t'. rewrite Hpg, Hcount. repeat split; try assumption.
    apply Z.ltb_lt. lia.
Qed.

Lemma open_links_move_one_page_witness :
  (exists this' : NgbPagination,
     clickNext 25
       (mkNgbPagination (Fin 3) (numbers_from 1 3) true false (Fin 25) (Fin 0)
          (Fin 2) (Fin 10) [])
     = Some this'
     /\ page this' = Fin (2 + 1)
     /\ pageChange this' = [] ++ [Fin (2 + 1)]
     /\ hasPrevious this' = true)
  /\ (exists this' : NgbPagination,
        clickPrevious 25
          (mkNgbPagination (Fin 3) (numbers_from 1 3) true false (Fin 25) (Fin 0)
             (Fin 2) (Fin 10) [])
        = Some this'
        /\ page this' = Fin (2 - 1)
        /\ pageChange this' = [] ++ [Fin (2 - 1)]
        /\ hasNext this' = true).
Proof.
  destruct (open_links_move_one_page 25
              (mkNgbPagination (Fin 3) (numbers_from 1 3) true false (Fin 25) (Fin 0)
                 (Fin 2) (Fin 10) [])
              25 10 2) as [Hnext Hprev];
    [reflexivity | reflexivity | lia | lia | lia | reflexivity | reflexivity |].
  split; [apply Hnext | apply Hprev]; reflexivity.
Defined.

(** X11: in a recomputed state with a next page, "Next" followed by
    "Previous" brings back the state it started from, page and Display
    Sequence included, with the two page changes emitted in order. *)
Theorem next_then_previous (fuel : nat) (this : NgbPagination) (cs ps p : Z) :
  collectionSize this = Fin cs -> pageSize this = Fin ps ->
  0 <= cs -> 0 < ps -> (Z.to_nat cs <= fuel)%nat ->
  page this = Fin p -> ngOnChanges fuel this = Some this ->
  hasNext this = true ->
  exists there : NgbPagination,
    clickNext fuel this = Some there
    /\ clickPrevious fuel there = Some (emit (emit this (Fin (p + 1))) (Fin p)).
Proof.
  intros Hcs Hps Hcs0 Hps0 Hfuel Hp Hfix Hnext.
  destruct (navigate fuel this cs ps p (p + 1) Hcs Hps Hcs0 Hps0 Hfuel Hp Hfix)
    as (Hsel & Hpg & Hev & Hcount & Hpc & Hclamp).
  destruct (recomputed_state fuel this cs ps Hcs Hps Hcs0 Hps0 Hfuel Hfix)
    as (Hthis & _ & _).
  set (q := - ((- cs) / ps)) in *.
  unfold hasNext in Hnext. rewrite Hp, Hpc in Hnext. apply Z.ltb_lt in Hnext.
  replace (Z.max 1 (Z.min (p + 1) q)) with (p + 1) in * by lia.
  destruct (Z.eqb_spec (p + 1) p); [lia|].
  rewrite <- after_fill_filled_emit in Hsel.
  remember (after_fill (filled (emit (set_page this (Fin (p + 1))) (Fin (p + 1))) q))
    as there eqn:Hthere.
  exists there. split; [unfold clickNext; rewrite Hp; exact Hsel|].
  assert (Hcs' : collectionSize there = Fin cs)
    by (rewrite Hthere, after_fill_filled_fields; exact Hcs).
  assert (Hps' : pageSize there = Fin ps)
    by (rewrite Hthere, after_fill_filled_fields; exact Hps).
  assert (Hfix' : ngOnChanges fuel there = Some there).
  { rewrite (ngOnChanges_returns fuel there cs ps) by assumption.
    fold q. rewrite Hthere. now rewrite after_fill_filled_fixpoint. }
  assert (Hpg' : page there = Fin (p + 1)).
  { rewrite Hthere, page_after_fill. cbn [page emit set_page].
    rewrite getValueInRange_Fin. f_equal. lia. }
  destruct (navigate fuel there cs ps (p + 1) p Hcs' Hps' Hcs0 Hps0 Hfuel Hpg' Hfix')
    as (Hsel' & _).
  fold q in Hsel'.
  replace (Z.max 1 (Z.min p q)) with p in Hsel' by lia.
  destruct (Z.eqb_spec p (p + 1)); [lia|].
  unfold clickPrevious. rewrite Hpg'.
  replace (sub (Fin (p + 1)) (Fin 1)) with (Fin p)
    by (unfold sub, add, neg; f_equal; lia).
  rewrite Hsel'. do 2 f_equal.
  rewrite (after_fill_filled_ext _ (emit this (Fin (p + 1))) q).
  - rewrite after_fill_filled_emit. now rewrite <- Hthis.
  - rewrite Hthere, after_fill_filled_fields. reflexivity.
  - rewrite Hthere, after_fill_filled_fields. reflexivity.
  - rewrite Hthere, after_fill_filled_fields. reflexivity.
  - rewrite Hthere, after_fill_filled_fields. reflexivity.
  - cbn [page set_page emit]. now rewrite Hp.
  - rewrite Hthere, after_fill_filled_fields. reflexivity.
  - rewrite Hthere, after_fill_filled_fields. reflexivity.
Qed.

Lemma next_then_previous_witness :
  exists there : NgbPagination,
    clickNext 25
      (mkNgbPagination (Fin 3) (numbers_from 1 3) true false (Fin 25) (Fin 0)
         (Fin 2) (Fin 10) [])
    = Some there
    /\ clickPrevious 25 there
       = Some
           (emit
              (emit
                 (mkNgbPagination (Fin 3) (numbers_from 1 3) true false (Fin 25)
                    (Fin 0) (Fin 2) (Fin 10) [])
                 (Fin (2 + 1)))
              (Fin 2)).
Proof.
  apply (next_then_previous 25
           (mkNgbPagination (Fin 3) (numbers_from 1 3) true false (Fin 25) (Fin 0)
              (Fin 2) (Fin 10) [])
           25 10 2);
    [reflexivity | reflexivity | lia | lia | lia | reflexivity | reflexivity
    | reflexivity].
Defined.

(** X12: in a recomputed state, "First" leads to page 1 and closes
    "Previous"; "Last" leads to the last page (page 1 when there is none)
    and closes "Next". *)
Theorem first_and_last_links (fuel : nat) (this : NgbPagination) (cs ps p : Z) :
  collectionSize this = Fin cs -> pageSize this = Fin ps ->
  0 <= cs -> 0 < ps -> (Z.to_nat cs <= fuel)%nat ->
  page this = Fin p -> ngOnChanges fuel this = Some this ->
  exists (pc : Z) (first last_ : NgbPagination),
    _pageCount this = Fin pc
    /\ clickFirst fuel this = Some first
    /\ page first = Fin 1 /\ hasPrevious first = false
    /\ clickLast fuel this = Some last_
    /\ page last_ = Fin (Z.max pc 1) /\ hasNext last_ = false.
Proof.
  intros Hcs Hps Hcs0 Hps0 Hfuel Hp Hfix.
  set (q := - ((- cs) / ps)).
  assert (Hnav : forall t,
             exists this' : NgbPagination,
               selectPage fuel this (Fin t) = Some this'
               /\ page this' = Fin (Z.max 1 (Z.min t q))
               /\ _pageCount this' = Fin q).
  { intros t.
    destruct (navigate fuel this cs ps p t Hcs Hps Hcs0 Hps0 Hfuel Hp Hfix)
      as (Hsel & Hpg & _ & Hcount & Hpc & _).
    fold q in Hsel, Hpg, Hcount, Hpc.
    destruct (Z.eqb_spec (Z.max 1 (Z.min t q)) p) as [E|E].
    - exists this. rewrite E. auto.
    - eexists. split; [exact Hsel|]. cbn [emit page _pageCount]. auto. }
  destruct (navigate fuel this cs ps p 0 Hcs Hps Hcs0 Hps0 Hfuel Hp Hfix)
    as (_ & _ & _ & _ & Hpc & _).
  fold q in Hpc.
  destruct (Hnav 1) as (first & Hf1 & Hf2 & _).
  destruct (Hnav q) as (last_ & Hl1 & Hl2 & Hl3).
  exists q, first, last_.
  unfold clickFirst, clickLast, hasPrevious, hasNext.
  rewrite Hpc, Hf2, Hl2, Hl3.
  replace (Z.max 1 (Z.min 1 q)) with 1 in * by lia.
  replace (Z.max 1 (Z.min q q)) with (Z.max q 1) in * by lia.
  repeat split; try assumption.
  unfold lt. apply Z.ltb_ge. lia.
Qed.

Lemma first_and_last_links_witness :
  exists (pc : Z) (first last_ : NgbPagination),
    _pageCount
      (mkNgbPagination (Fin 3) (numbers_from 1 3) true false (Fin 25) (Fin 0)
         (Fin 2) (Fin 10) [])
    = Fin pc
    /\ clickFirst 25
         (mkNgbPagination (Fin 3) (numbers_from 1 3) true false (Fin 25) (Fin 0)
            (Fin 2) (Fin 10) [])
       = Some first
    /\ page first = Fin 1 /\ hasPrevious first = false
    /\ clickLast 25
         (mkNgbPagination (Fin 3) (numbers_from 1 3) true false (Fin 25) (Fin 0)
            (Fin 2) (Fin 10) [])
       = Some last_
    /\ page last_ = Fin (Z.max pc 1) /\ hasNext last_ = false.
Proof.
  apply (first_and_last_links 25
           (mkNgbPagination (Fin 3) (numbers_from 1 3) true false (Fin 25) (Fin 0)
              (Fin 2) (Fin 10) [])
           25 10 2);
    [reflexivity | reflexivity | lia | lia | lia | reflexivity | reflexivity].
Defined.

(** X13: in a recomputed state every entry of the Display Sequence has a
    working link: an ellipsis does nothing, and a page entry selects
    exactly the page it shows, emitting it unless it is the active entry. *)
Theorem page_links_select_their_page
    (fuel : nat) (this : NgbPagination) (cs ps p : Z) (e : number) :
  collectionSize this = Fin cs -> pageSize this = Fin ps ->
  0 <= cs -> 0 < ps -> (Z.to_nat cs <= fuel)%nat ->
  page this = Fin p -> ngOnChanges fuel this = Some this ->
  In e (pages this) ->
  exists this' : NgbPagination,
    clickPage fuel this e = Some this'
    /\ (_isEllipsis e = true -> this' = this)
    /\ (_isEllipsis e = false ->
        page this' = e
        /\ pageChange this'
           = pageChange this ++ (if isActive this e then [] else [e])).
Proof.
  intros Hcs Hps Hcs0 Hps0 Hfuel Hp Hfix Hin.
  destruct (recomputed_state fuel this cs ps Hcs Hps Hcs0 Hps0 Hfuel Hfix)
    as (Hthis & _ & _).
  set (q := - ((- cs) / ps)) in *.
  rewrite Hthis in Hin.
  pose proof (display_entries_after_fill this q) as Hall.
  rewrite Forall_forall in Hall. specialize (Hall e Hin).
  destruct Hall as [[-> Hell] | (v & -> & Hv & Hell)].
  - exists this. unfold clickPage. rewrite Hell.
    split; [reflexivity|]. split; [reflexivity | discriminate].
  - unfold clickPage. rewrite Hell.
    destruct (navigate fuel this cs ps p v Hcs Hps Hcs0 Hps0 Hfuel Hp Hfix)
      as (Hsel & Hpg & Hev & _).
    fold q in Hsel, Hpg, Hev.
    replace (Z.max 1 (Z.min v q)) with v in * by lia.
    unfold isActive. rewrite Hp. cbn [strict_eq].
    destruct (Z.eqb_spec v p) as [->|Hne].
    + exists this. split; [exact Hsel|]. split; [discriminate|].
      intros _. split; [exact Hp | now rewrite app_nil_r].
    + eexists. split; [exact Hsel|]. split; [discriminate|].
      intros _. cbn [emit page pageChange]. split; [exact Hpg | now rewrite Hev].
Qed.

Lemma page_links_select_their_page_witness :
  exists this' : NgbPagination,
    clickPage 25
      (mkNgbPagination (Fin 3) (numbers_from 1 3) true false (Fin 25) (Fin 0)
         (Fin 2) (Fin 10) [])
      (Fin 3)
    = Some this'
    /\ (_isEllipsis (Fin 3) = true ->
        this'
        = mkNgbPagination (Fin 3) (numbers_from 1 3) true false (Fin 25) (Fin 0)
            (Fin 2) (Fin 10) [])
    /\ (_isEllipsis (Fin 3) = false ->
        page this' = Fin 3
        /\ pageChange this'
           = [] ++ (if isActive
                         (mkNgbPagination (Fin 3) (numbers_from 1 3) true false
                            (Fin 25) (Fin 0) (Fin 2) (Fin 10) [])
                         (Fin 3)
                    then [] else [Fin 3])).
Proof.
  apply (page_links_select_their_page 25
           (mkNgbPagination (Fin 3) (numbers_from 1 3) true false (Fin 25) (Fin 0)
              (Fin 2) (Fin 10) [])
           25 10 2 (Fin 3));
    [reflexivity | reflexivity | lia | lia | lia | reflexivity | reflexivity|].
  right. right. left. reflexivity.
Defined.

(** X14: when the stored page count is the one the inputs give,
    [selectPage] ends in a state that a recompute returns unchanged, and
    selecting the same page again changes nothing and emits nothing. *)
Theorem selectPage_settles (fuel : nat) (this : NgbPagination) (cs ps t : Z) :
  collectionSize this = Fin cs -> pageSize this = Fin ps ->
  0 <= cs -> 0 < ps -> (Z.to_nat cs <= fuel)%nat ->
  _pageCount this = ceil (div (collectionSize this) (pageSize this)) ->
  exists this' : NgbPagination,
    selectPage fuel this (Fin t) = Some this'
    /\ ngOnChanges fuel this' = Some this'
    /\ selectPage fuel this' (Fin t) = Some this'.
Proof.
  intros Hcs Hps Hcs0 Hps0 Hfuel Hpc.
  rewrite (pageCount_Fin this cs ps Hcs Hps Hps0) in Hpc.
  set (q := - ((- cs) / ps)) in *. set (r := Z.max 1 (Z.min t q)).
  assert (Hr : _getPageNoInRange this (Fin t) = Fin r).
  { unfold _getPageNoInRange. rewrite Hpc. apply getValueInRange_Fin. }
  assert (Hsel : exists u : NgbPagination,
             selectPage fuel this (Fin t) = Some (after_fill (filled u q))
             /\ page u = Fin r
             /\ collectionSize u = Fin cs /\ pageSize u = Fin ps).
  { rewrite (selectPage_result fuel this cs ps r) by assumption. fold q.
    destruct (strict_eq (Fin r) (page this)) eqn:E.
    - apply strict_eq_Fin in E. exists this. auto.
    - exists (emit (set_page this (Fin r)) (Fin r)).
      rewrite after_fill_filled_emit. auto. }
  destruct Hsel as (u & Hsel & Hpu & Hcu & Hsu).
  remember (after_fill (filled u q)) as this' eqn:Hthis'.
  assert (Hcs' : collectionSize this' = Fin cs)
    by (rewrite Hthis', after_fill_filled_fields; exact Hcu).
  assert (Hps' : pageSize this' = Fin ps)
    by (rewrite Hthis', after_fill_filled_fields; exact Hsu).
  assert (Hfix : after_fill (filled this' q) = this')
    by (rewrite Hthis'; apply after_fill_filled_fixpoint).
  exists this'. split; [exact Hsel|]. split.
  - rewrite (ngOnChanges_returns fuel this' cs ps) by assumption.
    fold q. now rewrite Hfix.
  - rewrite (selectPage_result fuel this' cs ps r); try assumption.
    + fold q. rewrite Hfix.
      replace (page this') with (Fin r); [cbn [strict_eq]; now rewrite Z.eqb_refl|].
      rewrite Hthis', page_after_fill, Hpu, getValueInRange_Fin.
      f_equal. unfold r. lia.
    + unfold _getPageNoInRange.
      replace (_pageCount this') with (Fin q)
        by (rewrite Hthis', after_fill_filled_fields; reflexivity).
      apply getValueInRange_Fin.
Qed.

Lemma selectPage_settles_witness :
  exists this' : NgbPagination,
    selectPage 95
      (mkNgbPagination (Fin 10) (numbers_from 1 10) true false (Fin 95) (Fin 0)
         (Fin 3) (Fin 10) [])
      (Fin 42)
    = Some this'
    /\ ngOnChanges 95 this' = Some this'
    /\ selectPage 95 this' (Fin 42) = Some this'.
Proof.
  apply (selectPage_settles 95
           (mkNgbPagination (Fin 10) (numbers_from 1 10) true false (Fin 95) (Fin 0)
              (Fin 3) (Fin 10) [])
           95 10 42);
    [reflexivity | reflexivity | lia | lia | lia | reflexivity].
Defined.

(** *** The Display Sequence in closed form *)

(** X15: with a negative page size and [collectionSize >= 0] the division
    gives a page count that is not positive, so the recompute returns,
    whatever the fuel, with an empty Display Sequence and page 1: unlike a
    page size of zero, a negative one is harmless. *)
Theorem negative_pageSize_display (fuel : nat) (this : NgbPagination) (cs ps : Z) :
  collectionSize this = Fin cs -> pageSize this = Fin ps ->
  0 <= cs -> ps < 0 ->
  exists (this' : NgbPagination) (pc : Z),
    ngOnChanges fuel this = Some this'
    /\ _pageCount this' = Fin pc /\ pc <= 0
    /\ pages this' = [] /\ page this' = Fin 1.
Proof.
  intros Hcs Hps Hcs0 Hps0.
  assert (Hq : ceil (div (collectionSize this) (pageSize this))
               = Fin (- ((- cs) / ps)))
    by (rewrite Hcs, Hps; apply ceil_div_Fin; lia).
  assert (Hq0 : - ((- cs) / ps) <= 0).
  { replace ((- cs) / ps) with (cs / (- ps))
      by (rewrite <- (Z.div_opp_opp cs (- ps)) by lia; now rewrite Z.opp_involutive).
    pose proof (Z.div_pos cs (- ps) Hcs0 ltac:(lia)). lia. }
  set (q := - (- cs / ps)) in *.
  assert (Hw : gt (maxSize this) (Fin 0) && gt (Fin q) (maxSize this) = false).
  { destruct (gt (maxSize this) (Fin 0) && gt (Fin q) (maxSize this)) eqn:E;
      [|reflexivity].
    apply windowing_engaged in E as (m & _ & Hm). lia. }
  exists (after_fill (filled this q)), q.
  split; [apply ngOnChanges_Fin; [assumption | lia]|].
  split; [rewrite after_fill_frame; reflexivity|].
  split; [exact Hq0|]. split.
  - rewrite (display_full this q Hw).
    replace (Z.to_nat q) with 0%nat by lia. reflexivity.
  - rewrite page_after_fill. unfold getValueInRange, le.
    destruct (Z.leb_spec q 0); [reflexivity | lia].
Qed.

Lemma negative_pageSize_display_witness :
  exists (this' : NgbPagination) (pc : Z),
    ngOnChanges 0 (init (Fin 25) (Fin (-10)) (Fin 5) (Fin 7) true true) = Some this'
    /\ _pageCount this' = Fin pc /\ pc <= 0
    /\ pages this' = [] /\ page this' = Fin 1.
Proof.
  apply (negative_pageSize_display 0
           (init (Fin 25) (Fin (-10)) (Fin 5) (Fin 7) true true) 25 (-10));
    [reflexivity | reflexivity | lia | lia].
Defined.

(** X16: the whole recompute under rotation, when the window is engaged:
    with [c] the clamped page and [s] the centred start clamped into [[0,
    pageCount - maxSize]], the Display Sequence is the [maxSize] pages [s +
    1 .. s + maxSize], never fewer, preceded by page 1 and an ellipsis when
    ellipses are on and [s > 0], and followed by an ellipsis and the last
    page when ellipses are on and [s + maxSize < pageCount]. *)
Theorem rotation_display (fuel : nat) (this : NgbPagination) (cs ps m p : Z) :
  collectionSize this = Fin cs -> pageSize this = Fin ps ->
  maxSize this = Fin m -> page this = Fin p -> rotate this = true ->
  0 <= cs -> 0 < ps -> 0 < m -> (Z.to_nat cs <= fuel)%nat ->
  exists (this' : NgbPagination) (pc : Z),
    ngOnChanges fuel this = Some this'
    /\ _pageCount this' = Fin pc
    /\ (m < pc ->
        let c := Z.max 1 (Z.min p pc) in
        let s := Z.max 0 (Z.min (c - m / 2 - 1) (pc - m)) in
        page this' = Fin c
        /\ pages this'
           = (if ellipses this && (0 <? s) then [Fin 1; ellipsis] else [])
             ++ numbers_from (s + 1) (Z.to_nat m)
             ++ (if ellipses this && (s + m <? pc) then [ellipsis; Fin pc] else [])).
Proof.
  intros Hcs Hps Hm Hp Hrot Hcs0 Hps0 Hm0 Hfuel.
  set (q := - ((- cs) / ps)).
  exists (after_fill (filled this q)), q.
  split; [now apply (ngOnChanges_returns fuel this cs ps)|].
  split; [rewrite after_fill_frame; reflexivity|].
  intros Hmq. cbv zeta.
  set (c := Z.max 1 (Z.min p q)).
  assert (Hc : getValueInRange (page this) (Fin q) (Fin 1) = Fin c)
    by (rewrite Hp; apply getValueInRange_Fin).
  split; [now rewrite page_after_fill|].
  destruct (display_windowed this q m c Hm ltac:(lia) Hc ltac:(unfold c; lia))
    as (s & Hs1 & Hs2 & Hb & ->).
  rewrite Hrot in Hb.
  rewrite (applyRotation_closed _ q m c) in Hb;
    try reflexivity; try exact Hm; try (unfold c; lia).
  injection Hb as Hb _.
  set (s0 := Z.max 0 (Z.min (c - m / 2 - 1) (q - m))) in *.
  subst s. unfold ellipsis.
  replace (Z.to_nat (Z.min (s0 + m) q - s0)) with (Z.to_nat m) by (unfold s0; lia).
  now replace (1 + s0) with (s0 + 1) by lia.
Qed.

Lemma rotation_display_witness :
  exists (this' : NgbPagination) (pc : Z),
    ngOnChanges 200 (init (Fin 200) (Fin 10) (Fin 5) (Fin 10) true true) = Some this'
    /\ _pageCount this' = Fin pc
    /\ (5 < pc ->
        let c := Z.max 1 (Z.min 10 pc) in
        let s := Z.max 0 (Z.min (c - 5 / 2 - 1) (pc - 5)) in
        page this' = Fin c
        /\ pages this'
           = (if true && (0 <? s) then [Fin 1; ellipsis] else [])
             ++ numbers_from (s + 1) (Z.to_nat 5)
             ++ (if true && (s + 5 <? pc) then [ellipsis; Fin pc] else [])).
Proof.
  apply (rotation_display 200
           (init (Fin 200) (Fin 10) (Fin 5) (Fin 10) true true) 200 10 5 10);
    [reflexivity | reflexivity | reflexivity | reflexivity | reflexivity
    | lia | lia | lia | lia].
Defined.

(** X17: the whole recompute under pagination blocks, when the window is
    engaged: with [c] the clamped page and [s = floor((c - 1) / maxSize) *
    maxSize], the Display Sequence is the block [s + 1 .. s + maxSize], cut
    off at the last page, preceded by page 1 and an ellipsis when ellipses
    are on and the block is not the first, and followed by an ellipsis and
    the last page when ellipses are on and the block ends before it. *)
Theorem pagination_display (fuel : nat) (this : NgbPagination) (cs ps m p : Z) :
  collectionSize this = Fin cs -> pageSize this = Fin ps ->
  maxSize this = Fin m -> page this = Fin p -> rotate this = false ->
  0 <= cs -> 0 < ps -> 0 < m -> (Z.to_nat cs <= fuel)%nat ->
  exists (this' : NgbPagination) (pc : Z),
    ngOnChanges fuel this = Some this'
    /\ _pageCount this' = Fin pc
    /\ (m < pc ->
        let c := Z.max 1 (Z.min p pc) in
        let s := (c - 1) / m * m in
        page this' = Fin c
        /\ pages this'
           = (if ellipses this && (0 <? s) then [Fin 1; ellipsis] else [])
             ++ numbers_from (s + 1) (Z.to_nat (Z.min m (pc - s)))
             ++ (if ellipses this && (s + m <? pc) then [ellipsis; Fin pc] else [])).
Proof.
  intros Hcs Hps Hm Hp Hrot Hcs0 Hps0 Hm0 Hfuel.
  set (q := - ((- cs) / ps)).
  exists (after_fill (filled this q)), q.
  split; [now apply (ngOnChanges_returns fuel this cs ps)|].
  split; [rewrite after_fill_frame; reflexivity|].
  intros Hmq. cbv zeta.
  set (c := Z.max 1 (Z.min p q)).
  assert (Hc : getValueInRange (page this) (Fin q) (Fin 1) = Fin c)
    by (rewrite Hp; apply getValueInRange_Fin).
  split; [now rewrite page_after_fill|].
  destruct (display_windowed this q m c Hm ltac:(lia) Hc ltac:(unfold c; lia))
    as (s & Hs1 & Hs2 & Hb & ->).
  rewrite Hrot in Hb.
  rewrite (applyPagination_Fin _ m c) in Hb;
    try reflexivity; try exact Hm; try lia.
  cbv zeta in Hb. rewrite block_of_page in Hb by lia.
  injection Hb as Hb _.
  set (s0 := (c - 1) / m * m) in *.
  subst s. unfold ellipsis.
  replace (Z.to_nat (Z.min (s0 + m) q - s0)) with (Z.to_nat (Z.min m (q - s0)))
    by lia.
  now replace (1 + s0) with (s0 + 1) by lia.
Qed.

Lemma pagination_display_witness :
  exists (this' : NgbPagination) (pc : Z),
    ngOnChanges 100 (init (Fin 100) (Fin 10) (Fin 3) (Fin 10) false true) = Some this'
    /\ _pageCount this' = Fin pc
    /\ (3 < pc ->
        let c := Z.max 1 (Z.min 10 pc) in
        let s := (c - 1) / 3 * 3 in
        page this' = Fin c
        /\ pages this'
           = (if true && (0 <? s) then [Fin 1; ellipsis] else [])
             ++ numbers_from (s + 1) (Z.to_nat (Z.min 3 (pc - s)))
             ++ (if true && (s + 3 <? pc) then [ellipsis; Fin pc] else [])).
Proof.
  apply (pagination_display 100
           (init (Fin 100) (Fin 10) (Fin 3) (Fin 10) false true) 100 10 3 10);
    [reflexivity | reflexivity | reflexivity | reflexivity | reflexivity
    | lia | lia | lia | lia].
Defined.
